(** * Service-principal secret store of azure-cli-core (auth/identity.py)

    A shallow embedding of [ServicePrincipalAuth], [MsalSecretStore] and the
    parts of [Identity] that drive them, followed by the properties of the
    credential-persistence design that hold (or fail) on that code.

    Python values are modelled as the code uses them:
    - a credential entry is a [dict] with string keys and string values
      ([gmap string string]; [==] on dicts is extensional, as is [=] on gmap);
    - [_service_principal_creds] is a Python list of such dicts, in order;
    - exceptions are an explicit [Raise] outcome, and an exception leaves the
      mutations done before it in place;
    - the lock, the backend and the logger are observed through a trace of
      events. *)

From stdpp Require Import base strings gmap list.

Open Scope string_scope.
Open Scope list_scope.

(** ** Python-level data *)

Abbreviation entry := (gmap string string).

Definition AZURE_CLI_CLIENT_ID : string := "04b07795-8ddb-461a-bbee-02f9e1bf7b46".

Definition _SERVICE_PRINCIPAL_ID : string := "servicePrincipalId".
Definition _SERVICE_PRINCIPAL_TENANT : string := "servicePrincipalTenant".
Definition _ACCESS_TOKEN : string := "accessToken".
Definition _SERVICE_PRINCIPAL_SECRET : string := "secret".
Definition _SERVICE_PRINCIPAL_CERT_FILE : string := "certificateFile".
Definition _SERVICE_PRINCIPAL_CERT_THUMBPRINT : string := "thumbprint".

(** Exceptions that the modelled code raises, catches or lets through.
    [BackendError] stands for whatever msal_extensions or the OS raises. *)
Inductive exn : Type :=
  | CLIError (msg : string)
  | KeyError (key : string)
  | ValueError (msg : string)
  | TypeError (msg : string)
  | NameError (name : string)
  | FileNotFoundError
  | PersistenceNotFound
  | BackendError (msg : string).

(** [str(ex)], as interpolated into messages. *)
Definition exn_str (e : exn) : string :=
  match e with
  | CLIError msg | KeyError msg | ValueError msg | TypeError msg
  | BackendError msg => msg
  | NameError name => "name '" +:+ name +:+ "' is not defined"
  | FileNotFoundError => "No such file or directory"
  | PersistenceNotFound => "Persistence not found"
  end.

Inductive result (A : Type) : Type :=
  | Ok (a : A)
  | Raise (e : exn).
Arguments Ok {A} a.
Arguments Raise {A} e.

#[global] Instance exn_eq_dec : EqDecision exn.
Proof. solve_decision. Defined.

#[global] Instance result_ret : MRet result := λ A a, Ok a.
#[global] Instance result_bind : MBind result := λ A B k r,
  match r with
  | Ok a => k a
  | Raise e => Raise e
  end.

(** [x[k]] on a dict: [KeyError] when the key is missing. *)
Definition getitem (x : entry) (k : string) : result string :=
  match x !! k with
  | Some v => Ok v
  | None => Raise (KeyError k)
  end.

(** [[x for x in l if cond(x)]] where evaluating [cond] may raise. *)
Fixpoint comprehension {A : Type} (cond : A → result bool) (l : list A)
  : result (list A) :=
  match l with
  | [] => Ok []
  | x :: l' =>
      b ← cond x;
      r ← comprehension cond l';
      Ok (if b : bool then x :: r else r)
  end.

(** [l.remove(x)]: drops the first element equal to [x]. *)
Fixpoint list_remove (x : entry) (l : list entry) : result (list entry) :=
  match l with
  | [] => Raise (ValueError "list.remove(x): x not in list")
  | y :: l' =>
      if bool_decide (y = x) then Ok l'
      else r ← list_remove x l'; Ok (y :: r)
  end.

(** Truthiness of an optional string ([None] and the empty string are falsy)
    and Python's [a or b]. *)
Definition truthy (v : option string) : bool :=
  match v with
  | Some (String _ _) => true
  | _ => false
  end.

Definition py_or (a b : option string) : option string :=
  if truthy a then a else b.

(** ** The world the secret store runs in *)

(** What [persistence.load()] followed by [json.loads] finds. *)
Inductive artifact : Type :=
  | NoArtifact                      (* PersistenceNotFound / FileNotFoundError *)
  | Unreadable (inner : string)     (* load or json.loads raises [inner] *)
  | JsonArray (creds : list entry). (* a JSON array of objects *)

Inductive persistence : Type :=
  | FilePersistenceWithDataProtection
  | KeychainPersistence
  | LibsecretPersistence
  | FilePersistence.

Inductive event : Type :=
  | EvAcquire                       (* CrossPlatLock.__enter__ *)
  | EvRelease                       (* CrossPlatLock.__exit__ *)
  | EvLoad (p : persistence)        (* persistence.load() *)
  | EvSave (p : persistence) (creds : list entry)  (* persistence.save(...) *)
  | EvUnlink                        (* os.remove(self._token_file) *)
  | EvWarning (msg : string).       (* logger.warning *)

(** One [MsalSecretStore] instance together with its environment:
    [sys_platform] is [sys.platform]; [libsecret_probe] is [Some ex] when the
    [LibsecretPersistence] constructor raises [ex]; [save_fault] is [Some ex]
    when [persistence.save] raises [ex]; [unlink_fault] is [Some ex] when
    [os.remove] of an existing file raises [ex]; [_token_file] is what the
    backend holds at that path. *)
Record store : Type := mkStore {
  sys_platform : string;
  libsecret_probe : option exn;
  save_fault : option exn;
  unlink_fault : option exn;
  _fallback_to_plaintext : bool;
  _service_principal_creds : list entry;
  _token_file : artifact
}.

Definition set_creds (l : list entry) (s : store) : store :=
  mkStore (sys_platform s) (libsecret_probe s) (save_fault s) (unlink_fault s)
          (_fallback_to_plaintext s) l (_token_file s).

Definition set_token_file (a : artifact) (s : store) : store :=
  mkStore (sys_platform s) (libsecret_probe s) (save_fault s) (unlink_fault s)
          (_fallback_to_plaintext s) (_service_principal_creds s) a.

(** ** State, trace and exception monad *)

Definition M (A : Type) : Type := store → result A * store * list event.

#[global] Instance M_ret : MRet M := λ A a s, (Ok a, s, []).
#[global] Instance M_bind : MBind M := λ A B k m s,
  match m s with
  | (Ok a, s1, t1) =>
      match k a s1 with
      | (r, s2, t2) => (r, s2, t1 ++ t2)
      end
  | (Raise e, s1, t1) => (Raise e, s1, t1)
  end.

Definition raise {A : Type} (e : exn) : M A := λ s, (Raise e, s, []).
Definition emit (ev : event) : M unit := λ s, (Ok tt, s, [ev]).
Definition get : M store := λ s, (Ok s, s, []).
Definition modify (f : store → store) : M unit := λ s, (Ok tt, f s, []).
Definition lift {A : Type} (r : result A) : M A := λ s, (r, s, []).

(** [with CrossPlatLock(...): body]: the lock is released on every exit. *)
Definition with_lock {A : Type} (body : M A) : M A := λ s,
  match body s with
  | (r, s1, t) => (r, s1, EvAcquire :: t ++ [EvRelease])
  end.

(** [try: body / except: handler]; the handler re-raises what it does not
    catch. *)
Definition try_except {A : Type} (body : M A) (handler : exn → M A) : M A := λ s,
  match body s with
  | (Raise e, s1, t1) =>
      match handler e s1 with
      | (r, s2, t2) => (r, s2, t1 ++ t2)
      end
  | done => done
  end.

Definition outcome_of {A : Type} (x : result A * store * list event) : result A := x.1.1.
Definition store_of {A : Type} (x : result A * store * list event) : store := x.1.2.
Definition trace_of {A : Type} (x : result A * store * list event) : list event := x.2.

(** ** class MsalSecretStore *)

Module MsalSecretStore.

(** [__init__]: an empty in-memory list; the environment is whatever the
    process finds. *)
Definition __init__ (platform : string) (probe save_ex unlink_ex : option exn)
    (file : artifact) (fallback_to_plaintext : bool) : store :=
  mkStore platform probe save_ex unlink_ex fallback_to_plaintext [] file.

Definition _build_persistence : M persistence :=
  s ← get;
  if String.prefix "win" (sys_platform s) then
    mret FilePersistenceWithDataProtection
  else if String.prefix "darwin" (sys_platform s) then
    mret KeychainPersistence
  else if String.prefix "linux" (sys_platform s) then
    match libsecret_probe s with
    | None => mret LibsecretPersistence
    | Some ex =>
        if negb (_fallback_to_plaintext s) then raise ex
        else
          emit (EvWarning "Encryption unavailable. Opting in to plain text.");;
          mret FilePersistence
    end
  else mret FilePersistence.

(** [json.loads(persistence.load())] *)
Definition load_json (p : persistence) : M (list entry) :=
  emit (EvLoad p);;
  s ← get;
  match _token_file s with
  | NoArtifact => raise PersistenceNotFound
  | Unreadable inner => raise (BackendError inner)
  | JsonArray creds => mret creds
  end.

(** [persistence.save(json.dumps(creds))] *)
Definition save_json (p : persistence) (creds : list entry) : M unit :=
  emit (EvSave p creds);;
  s ← get;
  match save_fault s with
  | Some ex => raise ex
  | None => modify (set_token_file (JsonArray creds))
  end.

Definition load_failed_msg (ex : exn) : string :=
  "Failed to load token files. If you have a repro, please log an issue at "
  +:+ "https://github.com/Azure/azure-cli/issues. At the same time, you can clean "
  +:+ "up by running 'az account clear' and then 'az login'. (Inner Error: "
  +:+ exn_str ex +:+ ")".

Definition _load_cached_creds : M unit :=
  persistence ← _build_persistence;
  with_lock
    (try_except
       (creds ← load_json persistence; modify (set_creds creds))
       (λ ex, match ex with
              | PersistenceNotFound => mret tt
              | _ => raise (CLIError (load_failed_msg ex))
              end)).

Definition _persist_cached_creds : M unit :=
  persistence ← _build_persistence;
  with_lock (s ← get; save_json persistence (_service_principal_creds s)).

Definition not_logged_in_msg (sp_id : string) : string :=
  "Could not retrieve credential from local cache for service principal "
  +:+ sp_id +:+ ". Please run 'az login' for this service principal.".

Definition cross_tenant_msg (sp_id tenant other : string) : string :=
  "Could not retrieve credential from local cache for service principal "
  +:+ sp_id +:+ " under tenant " +:+ tenant
  +:+ ". Trying credential under tenant " +:+ other
  +:+ ", assuming that is an app credential.".

Definition retrieve_secret_of_service_principal (sp_id tenant : string)
  : M (option string) :=
  _load_cached_creds;;
  s ← get;
  matched ← lift (comprehension
    (λ x, i ← getitem x _SERVICE_PRINCIPAL_ID; mret (bool_decide (sp_id = i)))
    (_service_principal_creds s));
  match matched with
  | [] => raise (CLIError (not_logged_in_msg sp_id))
  | first :: _ =>
      matched_with_tenant ← lift (comprehension
        (λ x, t ← getitem x _SERVICE_PRINCIPAL_TENANT;
              mret (bool_decide (tenant = t)))
        matched);
      cred ← match matched_with_tenant with
             | c :: _ => mret c
             | [] =>
                 other ← lift (getitem first _SERVICE_PRINCIPAL_TENANT);
                 emit (EvWarning (cross_tenant_msg sp_id tenant other));;
                 mret first
             end;
      mret (py_or (cred !! _SERVICE_PRINCIPAL_SECRET)
                  (cred !! _SERVICE_PRINCIPAL_CERT_FILE))
  end.

(** The filter of [save_service_principal_cred]; [and] short-circuits, so
    the tenants are only looked up when the ids agree. *)
Definition same_id_and_tenant (sp_entry x : entry) : result bool :=
  a ← getitem sp_entry _SERVICE_PRINCIPAL_ID;
  b ← getitem x _SERVICE_PRINCIPAL_ID;
  if bool_decide (a = b) then
    c ← getitem sp_entry _SERVICE_PRINCIPAL_TENANT;
    d ← getitem x _SERVICE_PRINCIPAL_TENANT;
    mret (bool_decide (c = d))
  else mret false.

Definition save_service_principal_cred (sp_entry : entry) : M unit :=
  _load_cached_creds;;
  s ← get;
  matched ← lift (comprehension (same_id_and_tenant sp_entry)
                    (_service_principal_creds s));
  state_changed ←
    match matched with
    | first :: _ =>
        if negb (bool_decide (sp_entry !! _ACCESS_TOKEN = first !! _ACCESS_TOKEN))
           || negb (bool_decide (sp_entry !! _SERVICE_PRINCIPAL_CERT_FILE
                                 = first !! _SERVICE_PRINCIPAL_CERT_FILE))
        then
          removed ← lift (list_remove first (_service_principal_creds s));
          modify (set_creds (removed ++ [sp_entry]));;
          mret true
        else mret false
    | [] =>
        modify (set_creds (_service_principal_creds s ++ [sp_entry]));;
        mret true
    end;
  if state_changed : bool then _persist_cached_creds else mret tt.

Definition remove_cached_creds (user_or_sp : string) : M unit :=
  _load_cached_creds;;
  s ← get;
  matched ← lift (comprehension
    (λ x, i ← getitem x _SERVICE_PRINCIPAL_ID;
          mret (bool_decide (i = user_or_sp)))
    (_service_principal_creds s));
  state_changed ←
    match matched with
    | _ :: _ =>
        modify (set_creds
          (filter (λ x, x ∉ matched) (_service_principal_creds s)));;
        mret true
    | [] => mret false
    end;
  if state_changed : bool then _persist_cached_creds else mret tt.

(** [os.remove(self._token_file)] *)
Definition os_remove : M unit :=
  emit EvUnlink;;
  s ← get;
  match _token_file s with
  | NoArtifact => raise FileNotFoundError
  | _ =>
      match unlink_fault s with
      | Some ex => raise ex
      | None => modify (set_token_file NoArtifact)
      end
  end.

Definition remove_all_cached_creds : M unit :=
  try_except os_remove
    (λ ex, match ex with
           | FileNotFoundError => mret tt
           | _ => raise ex
           end).

End MsalSecretStore.

(** ** class ServicePrincipalAuth *)

Module ServicePrincipalAuth.

(** [hasattr(self, 'secret')] holds exactly for [Secret]; the certificate
    branch sets [certificate_file] and [thumbprint] instead. *)
Inductive credential : Type :=
  | Secret (secret : string)
  | Certificate (certificate_file thumbprint : string).

Record t : Type := mk {
  client_id : string;
  tenant_id : string;
  cred : credential
}.

(** [__init__]; [cert_digest] reads the PEM file and returns its SHA-1
    thumbprint (OpenSSL, outside this module). *)
Definition __init__ (cert_digest : string → result string)
    (client_id tenant_id : string) (secret certificate_file : option string)
  : result t :=
  if negb (truthy (py_or secret certificate_file)) then
    Raise (CLIError ("Missing secret or certificate in order to "
                     +:+ "authenticate through a service principal"))
  else if truthy certificate_file then
    let path := default EmptyString certificate_file in
    thumbprint ← cert_digest path;
    mret (mk client_id tenant_id (Certificate path thumbprint))
  else mret (mk client_id tenant_id (Secret (default EmptyString secret))).

Definition get_entry_to_persist_legacy (self : t) : entry :=
  let entry : entry :=
    <[_SERVICE_PRINCIPAL_TENANT := tenant_id self]>
      {[_SERVICE_PRINCIPAL_ID := client_id self]} in
  match cred self with
  | Secret secret => <[_ACCESS_TOKEN := secret]> entry
  | Certificate certificate_file thumbprint =>
      <[_SERVICE_PRINCIPAL_CERT_THUMBPRINT := thumbprint]>
        (<[_SERVICE_PRINCIPAL_CERT_FILE := certificate_file]> entry)
  end.

Definition get_entry_to_persist (self : t) : entry :=
  let entry : entry :=
    <[_SERVICE_PRINCIPAL_TENANT := tenant_id self]>
      {[_SERVICE_PRINCIPAL_ID := client_id self]} in
  match cred self with
  | Secret secret => <[_SERVICE_PRINCIPAL_SECRET := secret]> entry
  | Certificate certificate_file _ =>
      <[_SERVICE_PRINCIPAL_CERT_FILE := certificate_file]> entry
  end.

End ServicePrincipalAuth.

(** ** class Identity (the parts that drive the secret store) *)

Module Identity.

Record t : Type := mk {
  authority : option string;
  tenant_id : string;
  client_id : string;
  allow_unencrypted : bool
}.

(** [x or default] for an optional string argument. *)
Definition or_default (x : option string) (default : string) : string :=
  match py_or x (Some default) with
  | Some v => v
  | None => default
  end.

(** [__init__]: [allow_unencrypted] is [kwargs.pop('allow_unencrypted', True)];
    the secret store is built with [fallback_to_plaintext] set to it. *)
Definition __init__ (platform : string) (probe save_ex unlink_ex : option exn)
    (file : artifact) (authority tenant_id client_id : option string)
    (allow_unencrypted : option bool) : t * store :=
  let allow := default true allow_unencrypted in
  (mk authority (or_default tenant_id "organizations")
      (or_default client_id AZURE_CLI_CLIENT_ID) allow,
   MsalSecretStore.__init__ platform probe save_ex unlink_ex file allow).

(** The names bound at module level in identity.py: its imports, constants,
    [logger], classes and function. Imports made inside a function body are
    local to it. *)
Definition module_globals : list string :=
  ["json"; "os"; "get_config_dir"; "get_file_json";
   "ManagedIdentityCredential"; "EnvironmentCredential";
   "TokenCachePersistenceOptions"; "get_logger"; "CLIError";
   "UserCredential"; "ServicePrincipalCredential";
   "aad_error_handler"; "resource_to_scopes"; "scopes_to_resource";
   "check_result"; "decode_access_token";
   "AZURE_CLI_CLIENT_ID"; "_SERVICE_PRINCIPAL_ID"; "_SERVICE_PRINCIPAL_TENANT";
   "_ACCESS_TOKEN"; "_SERVICE_PRINCIPAL_SECRET"; "_SERVICE_PRINCIPAL_CERT_FILE";
   "_SERVICE_PRINCIPAL_CERT_THUMBPRINT"; "logger";
   "Identity"; "ServicePrincipalAuth"; "MsalSecretStore";
   "_read_response_templates"].

(** Reading a global name inside a method: [NameError] when the module does
    not bind it (and it is no builtin). *)
Definition load_global (name : string) : result unit :=
  if bool_decide (name ∈ module_globals) then Ok tt else Raise (NameError name).

Section Broker.

(** The token broker and the helpers of [.util], outside this module. *)
Variable acquire_token_for_client : string → string → result unit.
Variable acquire_token_by_refresh_token : string → string → entry.
Variable resource_to_scopes : string → string.
Variable cert_digest : string → result string.
Variable dict_repr : entry → string.

(** The interpreter's wording of the arity [TypeError]; it differs between
    CPython versions. *)
Variable arity_mismatch : string.

Definition login_with_service_principal (self : t)
    (client_id secret_or_certificate : string) : M unit :=
  lift (acquire_token_for_client client_id secret_or_certificate);;
  sp_auth ← lift (ServicePrincipalAuth.__init__ cert_digest client_id
                    (tenant_id self) (Some secret_or_certificate) None);
  MsalSecretStore.save_service_principal_cred
    (ServicePrincipalAuth.get_entry_to_persist sp_auth).

Definition logout_sp (sp : string) : M unit :=
  MsalSecretStore.remove_cached_creds sp.

Definition get_service_principal_credential (self : t) (client_id : string)
  : M (string * option string) :=
  secret_or_certificate ←
    MsalSecretStore.retrieve_secret_of_service_principal client_id (tenant_id self);
  mret (client_id, secret_or_certificate).

(** [self._build_persistent_msal_app(authority)]: the method is declared with
    [self] only, so any further positional argument is a [TypeError]. *)
Definition _build_persistent_msal_app (args : list string) : M unit :=
  match args with
  | [] => mret tt
  | _ => raise (TypeError arity_mismatch)
  end.

(** The body of the [try] in [migrate_tokens], for one legacy entry. *)
Definition migrate_entry (e : entry) : M unit :=
  match e !! "userId" with
  | Some username =>
      authority ← lift (getitem e "_authority");
      resource ← lift (getitem e "resource");
      let scopes := resource_to_scopes resource in
      refresh_token ← lift (getitem e "refreshToken");
      _build_persistent_msal_app [authority];;
      emit (EvWarning ("Migrating refresh token: username: " +:+ username
                       +:+ ", authority: " +:+ authority
                       +:+ ", scopes: " +:+ scopes));;
      let token_dict := acquire_token_by_refresh_token refresh_token scopes in
      match token_dict !! "error" with
      | Some _ =>
          raise (CLIError ("Failed to migrate token from ADAL cache to MSAL cache. "
                         +:+ dict_repr token_dict))
      | None => mret tt
      end
  | None =>
      sp ← lift (getitem e "servicePrincipalId");
      tenant ← lift (getitem e "servicePrincipalTenant");
      emit (EvWarning ("Migrating service principal secret: servicePrincipalId: "
                       +:+ sp +:+ ", servicePrincipalTenant: " +:+ tenant));;
      MsalSecretStore.save_service_principal_cred e
  end.

(** [for entry in entries: try: ... except CLIError: continue] *)
Fixpoint migrate_loop (entries : list entry) : M unit :=
  match entries with
  | [] => mret tt
  | e :: rest =>
      try_except (migrate_entry e)
        (λ ex, match ex with
               | CLIError _ => mret tt
               | _ => raise ex
               end);;
      migrate_loop rest
  end.

(** [migrate_tokens]. The first statement after the warning evaluates
    [AdalCredentialCache()], a name the module neither defines nor imports.
    [entries] is what [_load_tokens_from_file()] would return if the name
    were bound. *)
Definition migrate_tokens (entries : list entry) : M unit :=
  emit (EvWarning "Migrating token cache from ADAL to MSAL.");;
  lift (load_global "AdalCredentialCache");;
  match entries with
  | [] => mret tt
  | _ => migrate_loop entries
  end.

End Broker.

(** [get_environment_credential], on [os.environ] as a dict: when
    [AZURE_USERNAME] is set and [AZURE_CLIENT_ID] is not, the CLI's client id
    is written into the environment. The result is the environment that
    [EnvironmentCredential] is then built from. *)
Definition get_environment_credential (environ : gmap string string)
  : gmap string string :=
  let username := environ !! "AZURE_USERNAME" in
  let client_id := environ !! "AZURE_CLIENT_ID" in
  if truthy username && negb (truthy client_id) then
    <["AZURE_CLIENT_ID" := AZURE_CLI_CLIENT_ID]> environ
  else environ.

End Identity.

(** ** Vocabulary of the properties *)

(** The identifying pair of a record, [None] for a key the dict lacks. *)
Definition key_of (x : entry) : option string * option string :=
  (x !! _SERVICE_PRINCIPAL_ID, x !! _SERVICE_PRINCIPAL_TENANT).

Definition unique_keys (l : list entry) : Prop := NoDup (key_of <$> l).

Definition well_formed (x : entry) : Prop :=
  is_Some (x !! _SERVICE_PRINCIPAL_ID) ∧ is_Some (x !! _SERVICE_PRINCIPAL_TENANT).

(** The records a reload makes current: the stored array, or the in-memory
    list when nothing was ever stored; [None] when the backend cannot be
    built or read. *)
Definition current_records (s : store) : option (list entry) :=
  match outcome_of (MsalSecretStore._build_persistence s), _token_file s with
  | Ok _, JsonArray l => Some l
  | Ok _, NoArtifact => Some (_service_principal_creds s)
  | _, _ => None
  end.

(** Uniqueness at an observation point covers both copies of the state. *)
Definition store_unique (s : store) : Prop :=
  unique_keys (_service_principal_creds s) ∧
  match _token_file s with
  | JsonArray l => unique_keys l
  | _ => True
  end.

(** Both copies of the state hold records with the two key fields. *)
Definition store_well_formed (s : store) : Prop :=
  Forall well_formed (_service_principal_creds s) ∧
  match _token_file s with
  | JsonArray l => Forall well_formed l
  | _ => True
  end.


(** The save fault of the environment is off. *)
Definition saves_succeed (s : store) : Prop := save_fault s = None.

Definition is_save (ev : event) : bool :=
  match ev with
  | EvSave _ _ => true
  | _ => false
  end.

(** Number of [persistence.save] calls in a trace. *)
Definition writes (t : list event) : nat := length (List.filter is_save t).





(** The two filters of [retrieve_secret_of_service_principal] and its
    returned expression, named. *)
Definition id_is (sp_id : string) (x : entry) : result bool :=
  i ← getitem x _SERVICE_PRINCIPAL_ID; mret (bool_decide (sp_id = i)).

Definition tenant_is (tenant : string) (x : entry) : result bool :=
  t ← getitem x _SERVICE_PRINCIPAL_TENANT; mret (bool_decide (tenant = t)).

Definition secret_or_certificate (cred : entry) : option string :=
  py_or (cred !! _SERVICE_PRINCIPAL_SECRET) (cred !! _SERVICE_PRINCIPAL_CERT_FILE).

(** The comparison [save_service_principal_cred] makes between the entry to
    save and the stored record with its key. *)
Definition content_differs (sp_entry first : entry) : bool :=
  negb (bool_decide (sp_entry !! _ACCESS_TOKEN = first !! _ACCESS_TOKEN))
  || negb (bool_decide (sp_entry !! _SERVICE_PRINCIPAL_CERT_FILE
                        = first !! _SERVICE_PRINCIPAL_CERT_FILE)).

(** The filter of [remove_cached_creds]. *)
Definition owned_by (user_or_sp : string) (x : entry) : result bool :=
  i ← getitem x _SERVICE_PRINCIPAL_ID; mret (bool_decide (i = user_or_sp)).

(** Concrete records and stores used by the scenarios. *)
Definition secret_entry (sp_id tenant secret : string) : entry :=
  ServicePrincipalAuth.get_entry_to_persist
    (ServicePrincipalAuth.mk sp_id tenant (ServicePrincipalAuth.Secret secret)).

Definition cert_entry (sp_id tenant path : string) : entry :=
  ServicePrincipalAuth.get_entry_to_persist
    (ServicePrincipalAuth.mk sp_id tenant
       (ServicePrincipalAuth.Certificate path "00:11")).

Definition fresh_store : store :=
  MsalSecretStore.__init__ "linux" None None None NoArtifact true.

Definition store_with (l : list entry) : store :=
  MsalSecretStore.__init__ "linux" None None None (JsonArray l) true.

Definition legacy_sp_entry : entry :=
  ServicePrincipalAuth.get_entry_to_persist_legacy
    (ServicePrincipalAuth.mk "sp1" "t1" (ServicePrincipalAuth.Secret "abc")).

Definition entry_without_id : entry :=
  {[_SERVICE_PRINCIPAL_SECRET := "abc"]}.

Definition legacy_sp_entry_no_tenant : entry :=
  {[_SERVICE_PRINCIPAL_ID := "sp0"]}.

Definition legacy_user_entry : entry :=
  <["refreshToken" := "0.AAAA"]>
    (<["resource" := "https://management.core.windows.net/"]>
       (<["_authority" := "https://login.microsoftonline.com/t1"]>
          {["userId" := "user@example.com"]})).

Definition legacy_user_entry_no_authority : entry :=
  {["userId" := "user@example.com"]}.

(** The re-login scenario: a first login with secret abc, then a login of
    the same principal and tenant with secret xyz. *)
Definition first_save : result unit * store * list event :=
  MsalSecretStore.save_service_principal_cred
    (secret_entry "sp1" "t1" "abc") fresh_store.

Definition second_save : result unit * store * list event :=
  MsalSecretStore.save_service_principal_cred
    (secret_entry "sp1" "t1" "xyz") (store_of first_save).

(** ** Running the monad *)

Ltac unfold_M :=
  unfold mbind, mret, M_bind, M_ret, raise, emit, get, modify, lift,
    with_lock, try_except, outcome_of, store_of, trace_of in *.

Ltac build_cases s :=
  unfold MsalSecretStore._build_persistence; unfold_M; simpl;
  destruct (String.prefix "win" (sys_platform s)); simpl;
  [|destruct (String.prefix "darwin" (sys_platform s)); simpl;
    [|destruct (String.prefix "linux" (sys_platform s)); simpl;
      [destruct (libsecret_probe s); simpl;
       [destruct (_fallback_to_plaintext s); simpl|]|]]].

Lemma build_store (s : store) :
  store_of (MsalSecretStore._build_persistence s) = s.
Proof.
  build_cases s; reflexivity.
Qed.

Lemma build_trace_cases (s : store) :
  trace_of (MsalSecretStore._build_persistence s) = []
  ∨ ∃ msg, trace_of (MsalSecretStore._build_persistence s) = [EvWarning msg].
Proof.
  build_cases s; eauto.
Qed.

Lemma build_run (s : store) :
  MsalSecretStore._build_persistence s
  = (outcome_of (MsalSecretStore._build_persistence s), s,
     trace_of (MsalSecretStore._build_persistence s)).
Proof.
  pose proof (build_store s) as H. unfold outcome_of, trace_of, store_of in *.
  destruct (MsalSecretStore._build_persistence s) as [[r s'] t]. simpl in *.
  by subst.
Qed.

(** The choice of backend looks at the platform, the probe and the flag
    only. *)
Lemma build_env (s s' : store) :
  sys_platform s' = sys_platform s →
  libsecret_probe s' = libsecret_probe s →
  _fallback_to_plaintext s' = _fallback_to_plaintext s →
  outcome_of (MsalSecretStore._build_persistence s')
  = outcome_of (MsalSecretStore._build_persistence s)
  ∧ trace_of (MsalSecretStore._build_persistence s')
    = trace_of (MsalSecretStore._build_persistence s).
Proof.
  intros Hp Hl Hf.
  unfold MsalSecretStore._build_persistence at 1 3. unfold_M. simpl.
  rewrite Hp, Hl, Hf. build_cases s; done.
Qed.

Lemma load_run (s : store) :
  MsalSecretStore._load_cached_creds s
  = match outcome_of (MsalSecretStore._build_persistence s) with
    | Raise ex => (Raise ex, s, trace_of (MsalSecretStore._build_persistence s))
    | Ok p =>
        let t := trace_of (MsalSecretStore._build_persistence s)
                 ++ [EvAcquire; EvLoad p; EvRelease] in
        match _token_file s with
        | NoArtifact => (Ok tt, s, t)
        | Unreadable inner =>
            (Raise (CLIError (MsalSecretStore.load_failed_msg (BackendError inner))), s, t)
        | JsonArray l => (Ok tt, set_creds l s, t)
        end
    end.
Proof.
  unfold MsalSecretStore._load_cached_creds.
  unfold mbind at 1. unfold M_bind. rewrite build_run.
  destruct (outcome_of (MsalSecretStore._build_persistence s)) as [p|ex]; [|done].
  unfold MsalSecretStore.load_json. unfold_M. simpl.
  destruct (_token_file s); simpl; reflexivity.
Qed.

Lemma persist_run (s : store) :
  MsalSecretStore._persist_cached_creds s
  = match outcome_of (MsalSecretStore._build_persistence s) with
    | Raise ex => (Raise ex, s, trace_of (MsalSecretStore._build_persistence s))
    | Ok p =>
        let t := trace_of (MsalSecretStore._build_persistence s)
                 ++ [EvAcquire; EvSave p (_service_principal_creds s); EvRelease] in
        match save_fault s with
        | Some ex => (Raise ex, s, t)
        | None => (Ok tt, set_token_file (JsonArray (_service_principal_creds s)) s, t)
        end
    end.
Proof.
  unfold MsalSecretStore._persist_cached_creds.
  unfold mbind at 1. unfold M_bind. rewrite build_run.
  destruct (outcome_of (MsalSecretStore._build_persistence s)) as [p|ex]; [|done].
  unfold MsalSecretStore.save_json. unfold_M. simpl.
  destruct (save_fault s); simpl; reflexivity.
Qed.

Lemma retrieve_run (sp_id tenant : string) (s : store) :
  MsalSecretStore.retrieve_secret_of_service_principal sp_id tenant s
  = match MsalSecretStore._load_cached_creds s with
    | (Raise ex, s1, t1) => (Raise ex, s1, t1)
    | (Ok _, s1, t1) =>
        match comprehension (id_is sp_id) (_service_principal_creds s1) with
        | Raise ex => (Raise ex, s1, t1)
        | Ok [] => (Raise (CLIError (MsalSecretStore.not_logged_in_msg sp_id)), s1, t1)
        | Ok (first :: rest) =>
            match comprehension (tenant_is tenant) (first :: rest) with
            | Raise ex => (Raise ex, s1, t1)
            | Ok (c :: _) => (Ok (secret_or_certificate c), s1, t1)
            | Ok [] =>
                match getitem first _SERVICE_PRINCIPAL_TENANT with
                | Raise ex => (Raise ex, s1, t1)
                | Ok other =>
                    (Ok (secret_or_certificate first), s1,
                     t1 ++ [EvWarning (MsalSecretStore.cross_tenant_msg sp_id tenant other)])
                end
            end
        end
    end.
Proof.
  unfold MsalSecretStore.retrieve_secret_of_service_principal.
  unfold mbind at 1. unfold M_bind at 1.
  destruct (MsalSecretStore._load_cached_creds s) as [[[[]|ex] s1] t1]; [|done].
  fold (id_is sp_id). fold (tenant_is tenant). unfold_M.
  cbn -[comprehension getitem].
  destruct (comprehension (id_is sp_id) (_service_principal_creds s1))
    as [[|first rest]|ex]; cbn -[comprehension getitem];
    rewrite ?app_nil_r; try done.
  destruct (comprehension (tenant_is tenant) (first :: rest))
    as [[|c ?]|ex]; cbn -[comprehension getitem]; rewrite ?app_nil_r; try done.
  destruct (getitem first _SERVICE_PRINCIPAL_TENANT);
    cbn -[comprehension getitem]; rewrite ?app_nil_r; done.
Qed.

Lemma save_run (e : entry) (s : store) :
  MsalSecretStore.save_service_principal_cred e s
  = match MsalSecretStore._load_cached_creds s with
    | (Raise ex, s1, t1) => (Raise ex, s1, t1)
    | (Ok _, s1, t1) =>
        match comprehension (MsalSecretStore.same_id_and_tenant e)
                (_service_principal_creds s1) with
        | Raise ex => (Raise ex, s1, t1)
        | Ok [] =>
            match MsalSecretStore._persist_cached_creds
                    (set_creds (_service_principal_creds s1 ++ [e]) s1) with
            | (r, s2, t2) => (r, s2, t1 ++ t2)
            end
        | Ok (first :: _) =>
            if content_differs e first then
              match list_remove first (_service_principal_creds s1) with
              | Raise ex => (Raise ex, s1, t1)
              | Ok removed =>
                  match MsalSecretStore._persist_cached_creds
                          (set_creds (removed ++ [e]) s1) with
                  | (r, s2, t2) => (r, s2, t1 ++ t2)
                  end
              end
            else (Ok tt, s1, t1)
        end
    end.
Proof.
  unfold MsalSecretStore.save_service_principal_cred.
  unfold mbind at 1. unfold M_bind at 1.
  destruct (MsalSecretStore._load_cached_creds s) as [[[[]|ex] s1] t1]; [|done].
  unfold_M. cbn -[comprehension list_remove MsalSecretStore._persist_cached_creds].
  destruct (comprehension (MsalSecretStore.same_id_and_tenant e)
              (_service_principal_creds s1)) as [[|first rest]|ex];
    cbn -[comprehension list_remove MsalSecretStore._persist_cached_creds];
    rewrite ?app_nil_r; try done.
  - by destruct (MsalSecretStore._persist_cached_creds _) as [[r s2] t2].
  - fold (content_differs e first).
    destruct (content_differs e first);
      cbn -[list_remove MsalSecretStore._persist_cached_creds];
      rewrite ?app_nil_r; [|done].
    destruct (list_remove first (_service_principal_creds s1)) as [removed|ex];
      cbn -[MsalSecretStore._persist_cached_creds];
      rewrite ?app_nil_r; [|done].
    by destruct (MsalSecretStore._persist_cached_creds _) as [[r s2] t2].
Qed.

Lemma remove_run (user_or_sp : string) (s : store) :
  MsalSecretStore.remove_cached_creds user_or_sp s
  = match MsalSecretStore._load_cached_creds s with
    | (Raise ex, s1, t1) => (Raise ex, s1, t1)
    | (Ok _, s1, t1) =>
        match comprehension (owned_by user_or_sp) (_service_principal_creds s1) with
        | Raise ex => (Raise ex, s1, t1)
        | Ok [] => (Ok tt, s1, t1)
        | Ok (first :: rest) =>
            match MsalSecretStore._persist_cached_creds
                    (set_creds (filter (λ x, x ∉ first :: rest)
                                  (_service_principal_creds s1)) s1) with
            | (r, s2, t2) => (r, s2, t1 ++ t2)
            end
        end
    end.
Proof.
  unfold MsalSecretStore.remove_cached_creds.
  unfold mbind at 1. unfold M_bind at 1.
  destruct (MsalSecretStore._load_cached_creds s) as [[[[]|ex] s1] t1]; [|done].
  fold (owned_by user_or_sp). unfold_M.
  cbn -[comprehension filter MsalSecretStore._persist_cached_creds].
  destruct (comprehension (owned_by user_or_sp) (_service_principal_creds s1))
    as [[|first rest]|ex];
    cbn -[comprehension filter MsalSecretStore._persist_cached_creds];
    rewrite ?app_nil_r; try done.
  by destruct (MsalSecretStore._persist_cached_creds _) as [[r s2] t2].
Qed.

Lemma remove_all_run (s : store) :
  MsalSecretStore.remove_all_cached_creds s
  = match _token_file s, unlink_fault s with
    | NoArtifact, _ | _, Some FileNotFoundError => (Ok tt, s, [EvUnlink])
    | _, Some ex => (Raise ex, s, [EvUnlink])
    | _, None => (Ok tt, set_token_file NoArtifact s, [EvUnlink])
    end.
Proof.
  unfold MsalSecretStore.remove_all_cached_creds, MsalSecretStore.os_remove.
  unfold_M. simpl.
  destruct (_token_file s); simpl; try done;
    destruct (unlink_fault s) as [[]|]; simpl; done.
Qed.

(** ** Backend selection *)

Lemma prefix_first (a : Ascii.ascii) (p q : string) :
  String.prefix (String a p) q = true → ∃ q', q = String a q'.
Proof.
  destruct q as [|b q']; simpl; [done|].
  destruct (Ascii.ascii_dec a b) as [->|]; [eauto|done].
Qed.

Lemma platform_exclusive (p : string) :
  (String.prefix "darwin" p = true → String.prefix "win" p = false)
  ∧ (String.prefix "linux" p = true →
     String.prefix "win" p = false ∧ String.prefix "darwin" p = false).
Proof.
  split; intros H; destruct (prefix_first _ _ _ H) as [q' ->]; done.
Qed.

(** C4. [_build_persistence] is a decision table over [sys.platform], the
    single libsecret probe and the fallback flag: a platform starting with
    "win" gets the data-protection file, "darwin" the keychain, "linux"
    libsecret; when the libsecret probe raises, the plain file is chosen with
    a warning if fallback is allowed and the probe's exception propagates if
    it is not; every other platform gets the plain file. The store is left
    untouched, and two stores that agree on the three inputs get the same
    backend and the same warnings. *)
Theorem backend_selection_table (s : store) :
  (String.prefix "win" (sys_platform s) = true →
   MsalSecretStore._build_persistence s
   = (Ok FilePersistenceWithDataProtection, s, []))
  ∧ (String.prefix "darwin" (sys_platform s) = true →
     MsalSecretStore._build_persistence s = (Ok KeychainPersistence, s, []))
  ∧ (String.prefix "linux" (sys_platform s) = true →
     match libsecret_probe s with
     | None =>
         MsalSecretStore._build_persistence s = (Ok LibsecretPersistence, s, [])
     | Some ex =>
         if _fallback_to_plaintext s then
           MsalSecretStore._build_persistence s
           = (Ok FilePersistence, s,
              [EvWarning "Encryption unavailable. Opting in to plain text."])
         else MsalSecretStore._build_persistence s = (Raise ex, s, [])
     end)
  ∧ (String.prefix "win" (sys_platform s) = false →
     String.prefix "darwin" (sys_platform s) = false →
     String.prefix "linux" (sys_platform s) = false →
     MsalSecretStore._build_persistence s = (Ok FilePersistence, s, []))
  ∧ (∀ s' : store,
       sys_platform s' = sys_platform s →
       libsecret_probe s' = libsecret_probe s →
       _fallback_to_plaintext s' = _fallback_to_plaintext s →
       outcome_of (MsalSecretStore._build_persistence s')
       = outcome_of (MsalSecretStore._build_persistence s)
       ∧ trace_of (MsalSecretStore._build_persistence s')
         = trace_of (MsalSecretStore._build_persistence s)).
Proof.
  destruct (platform_exclusive (sys_platform s)) as [Hd Hl].
  repeat split.
  - intros H. unfold MsalSecretStore._build_persistence. unfold_M. simpl.
    by rewrite H.
  - intros H. unfold MsalSecretStore._build_persistence. unfold_M. simpl.
    by rewrite (Hd H), H.
  - intros H. destruct (Hl H) as [Hw Hk].
    unfold MsalSecretStore._build_persistence. unfold_M. simpl.
    rewrite Hw, Hk, H.
    destruct (libsecret_probe s); [|done].
    by destruct (_fallback_to_plaintext s).
  - intros Hw Hk Hx. unfold MsalSecretStore._build_persistence. unfold_M. simpl.
    by rewrite Hw, Hk, Hx.
  - by apply build_env.
  - by apply build_env.
Qed.

Lemma backend_selection_witness :
  MsalSecretStore._build_persistence
    (MsalSecretStore.__init__ "win32" None None None NoArtifact true)
  = (Ok FilePersistenceWithDataProtection,
     MsalSecretStore.__init__ "win32" None None None NoArtifact true, [])
  ∧ MsalSecretStore._build_persistence
      (MsalSecretStore.__init__ "darwin" None None None NoArtifact true)
    = (Ok KeychainPersistence,
       MsalSecretStore.__init__ "darwin" None None None NoArtifact true, [])
  ∧ MsalSecretStore._build_persistence
      (MsalSecretStore.__init__ "linux" (Some (BackendError "no keyring")) None None
         NoArtifact false)
    = (Raise (BackendError "no keyring"),
       MsalSecretStore.__init__ "linux" (Some (BackendError "no keyring")) None None
         NoArtifact false, [])
  ∧ MsalSecretStore._build_persistence
      (MsalSecretStore.__init__ "linux" (Some (BackendError "no keyring")) None None
         NoArtifact true)
    = (Ok FilePersistence,
       MsalSecretStore.__init__ "linux" (Some (BackendError "no keyring")) None None
         NoArtifact true,
       [EvWarning "Encryption unavailable. Opting in to plain text."])
  ∧ MsalSecretStore._build_persistence
      (MsalSecretStore.__init__ "freebsd13" None None None NoArtifact true)
    = (Ok FilePersistence,
       MsalSecretStore.__init__ "freebsd13" None None None NoArtifact true, [])
  ∧ outcome_of (MsalSecretStore._build_persistence
                  (store_with [secret_entry "sp1" "t1" "abc"]))
    = outcome_of (MsalSecretStore._build_persistence fresh_store).
Proof.
  split; [|split; [|split; [|split; [|split]]]].
  - apply (backend_selection_table
             (MsalSecretStore.__init__ "win32" None None None NoArtifact true)).
    reflexivity.
  - apply (backend_selection_table
             (MsalSecretStore.__init__ "darwin" None None None NoArtifact true)).
    reflexivity.
  - apply (proj1 (proj2 (proj2 (backend_selection_table
             (MsalSecretStore.__init__ "linux" (Some (BackendError "no keyring"))
                None None NoArtifact false))))).
    reflexivity.
  - apply (proj1 (proj2 (proj2 (backend_selection_table
             (MsalSecretStore.__init__ "linux" (Some (BackendError "no keyring"))
                None None NoArtifact true))))).
    reflexivity.
  - apply (backend_selection_table
             (MsalSecretStore.__init__ "freebsd13" None None None NoArtifact true));
      reflexivity.
  - apply (proj2 (proj2 (proj2 (proj2 (backend_selection_table fresh_store))))
             (store_with [secret_entry "sp1" "t1" "abc"]));
      reflexivity.
Defined.

(** ** Deleting the whole store *)

(** C9. [remove_all_cached_creds] on a missing artifact returns normally and
    changes nothing (the [FileNotFoundError] of [os.remove] is swallowed);
    on an empty stored array it deletes the artifact and returns normally;
    and it is idempotent: after one successful call a second call succeeds
    too and leaves the store as the first one left it. *)
Theorem remove_all_missing_ok (s : store) :
  (_token_file s = NoArtifact →
   MsalSecretStore.remove_all_cached_creds s = (Ok tt, s, [EvUnlink]))
  ∧ (_token_file s = JsonArray [] → unlink_fault s = None →
     MsalSecretStore.remove_all_cached_creds s
     = (Ok tt, set_token_file NoArtifact s, [EvUnlink]))
  ∧ (outcome_of (MsalSecretStore.remove_all_cached_creds s) = Ok tt →
     MsalSecretStore.remove_all_cached_creds
       (store_of (MsalSecretStore.remove_all_cached_creds s))
     = (Ok tt, store_of (MsalSecretStore.remove_all_cached_creds s), [EvUnlink])).
Proof.
  split; [|split].
  - intros H. rewrite remove_all_run, H. by destruct (unlink_fault s) as [[]|].
  - intros H Hu. by rewrite remove_all_run, H, Hu.
  - rewrite (remove_all_run s).
    destruct (_token_file s) eqn:Hf; destruct (unlink_fault s) as [[]|] eqn:Hu;
      unfold outcome_of, store_of; simpl; intros H; try discriminate H;
      rewrite remove_all_run; simpl; rewrite ?Hf, ?Hu; done.
Qed.

Lemma remove_all_missing_ok_witness :
  MsalSecretStore.remove_all_cached_creds fresh_store
  = (Ok tt, fresh_store, [EvUnlink])
  ∧ MsalSecretStore.remove_all_cached_creds (store_with [])
    = (Ok tt, fresh_store, [EvUnlink])
  ∧ MsalSecretStore.remove_all_cached_creds
      (store_of (MsalSecretStore.remove_all_cached_creds
                   (store_with [secret_entry "sp1" "t1" "abc"])))
    = (Ok tt, store_of (MsalSecretStore.remove_all_cached_creds
                          (store_with [secret_entry "sp1" "t1" "abc"])),
       [EvUnlink]).
Proof.
  split; [|split].
  - apply (remove_all_missing_ok fresh_store). reflexivity.
  - apply (remove_all_missing_ok (store_with [])); reflexivity.
  - apply (remove_all_missing_ok (store_with [secret_entry "sp1" "t1" "abc"])).
    reflexivity.
Defined.

(** ** The lock protocol *)








(** ** List comprehensions *)

Lemma comprehension_filter {A : Type} (cond : A → result bool) (P : A → Prop)
    `{!∀ x, Decision (P x)} (l : list A) :
  Forall (λ x, cond x = Ok (bool_decide (P x))) l →
  comprehension cond l = Ok (filter P l).
Proof.
  induction 1 as [|x l Hx _ IH]; [done|].
  rewrite filter_cons. cbn -[filter]. rewrite Hx. cbn -[filter].
  rewrite IH. cbn -[filter]. by case_bool_decide; case_decide.
Qed.

Lemma comprehension_inv {A : Type} (cond : A → result bool) (l m : list A) :
  comprehension cond l = Ok m →
  Forall (λ x, (cond x = Ok true ∧ x ∈ m) ∨ cond x = Ok false) l
  ∧ Forall (λ x, cond x = Ok true ∧ x ∈ l) m.
Proof.
  revert m. induction l as [|x l IH]; intros m H; cbn in H.
  - by simplify_eq.
  - destruct (cond x) as [b|] eqn:Hx; cbn in H; [|done].
    destruct (comprehension cond l) as [r|] eqn:Hr; cbn in H; [|done].
    destruct (IH r eq_refl) as [IH1 IH2]. simplify_eq. split.
    + constructor.
      * destruct b; [left; split; [done|left]|by right].
      * eapply Forall_impl; [exact IH1|]. intros y [[Hy Hin]|Hy]; [|by right].
        left. split; [done|]. destruct b; [by right|done].
    + destruct b.
      * constructor; [split; [done|left]|].
        eapply Forall_impl; [exact IH2|]. intros y [Hy Hin]. split; [done|by right].
      * eapply Forall_impl; [exact IH2|]. intros y [Hy Hin]. split; [done|by right].
Qed.

Lemma comprehension_nil {A : Type} (cond : A → result bool) (l : list A) :
  comprehension cond l = Ok [] ↔ Forall (λ x, cond x = Ok false) l.
Proof.
  split.
  - intros H. destruct (comprehension_inv _ _ _ H) as [H1 _].
    eapply Forall_impl; [exact H1|]. intros x [[_ Hin]|Hx]; [|done].
    by apply elem_of_nil in Hin.
  - induction 1 as [|x l Hx _ IH]; [done|]. cbn. rewrite Hx. cbn. by rewrite IH.
Qed.

Lemma id_is_spec (sp_id : string) (x : entry) :
  is_Some (x !! _SERVICE_PRINCIPAL_ID) →
  id_is sp_id x = Ok (bool_decide (x !! _SERVICE_PRINCIPAL_ID = Some sp_id)).
Proof.
  intros [i Hi]. unfold id_is, getitem. rewrite Hi. cbn. f_equal.
  apply bool_decide_ext. split; congruence.
Qed.

Lemma tenant_is_spec (tenant : string) (x : entry) :
  is_Some (x !! _SERVICE_PRINCIPAL_TENANT) →
  tenant_is tenant x
  = Ok (bool_decide (x !! _SERVICE_PRINCIPAL_TENANT = Some tenant)).
Proof.
  intros [i Hi]. unfold tenant_is, getitem. rewrite Hi. cbn. f_equal.
  apply bool_decide_ext. split; congruence.
Qed.

Lemma id_is_false (sp_id : string) (x : entry) :
  id_is sp_id x = Ok false
  ↔ ∃ i, x !! _SERVICE_PRINCIPAL_ID = Some i ∧ i ≠ sp_id.
Proof.
  unfold id_is, getitem. destruct (x !! _SERVICE_PRINCIPAL_ID) as [i|]; cbn.
  - split.
    + intros H. exists i. split; [done|]. intros ->.
      by rewrite bool_decide_eq_true_2 in H.
    + intros (j & Hj & Hne). simplify_eq. by rewrite bool_decide_eq_false_2.
  - split; [done|]. by intros (j & Hj & _).
Qed.

Lemma owned_by_id_is (sp_id : string) (x : entry) (b : bool) :
  owned_by sp_id x = Ok b ↔ id_is sp_id x = Ok b.
Proof.
  unfold owned_by, id_is, getitem.
  destruct (x !! _SERVICE_PRINCIPAL_ID) as [i|]; cbn; [|done].
  by rewrite (bool_decide_ext (i = sp_id) (sp_id = i)).
Qed.

(** ** Reloading *)

Lemma set_creds_id (s : store) : set_creds (_service_principal_creds s) s = s.
Proof. by destruct s. Qed.

Lemma current_set_creds (l : list entry) (s : store) :
  current_records (set_creds l s)
  = match current_records s, _token_file s with
    | Some _, NoArtifact => Some l
    | r, _ => r
    end.
Proof.
  unfold current_records.
  destruct (build_env s (set_creds l s) eq_refl eq_refl eq_refl) as [-> _].
  destruct (outcome_of (MsalSecretStore._build_persistence s)); [|done].
  simpl. by destruct (_token_file s).
Qed.

Lemma current_set_token_file (l : list entry) (s : store) :
  is_Some (current_records s) →
  current_records (set_token_file (JsonArray l) s) = Some l.
Proof.
  unfold current_records.
  destruct (build_env s (set_token_file (JsonArray l) s) eq_refl eq_refl eq_refl)
    as [-> _].
  destruct (outcome_of (MsalSecretStore._build_persistence s)); [done|].
  by intros [? ?].
Qed.

Lemma load_current (s : store) (l : list entry) :
  current_records s = Some l →
  MsalSecretStore._load_cached_creds s
  = (Ok tt, set_creds l s, trace_of (MsalSecretStore._load_cached_creds s))
  ∧ current_records (set_creds l s) = Some l.
Proof.
  intros H. rewrite current_set_creds, H. rewrite load_run.
  unfold current_records in H.
  destruct (outcome_of (MsalSecretStore._build_persistence s)); [|done].
  destruct (_token_file s); simplify_eq; simpl; [|done].
  by rewrite set_creds_id.
Qed.


Lemma persist_inv (s s2 : store) (t2 : list event) :
  MsalSecretStore._persist_cached_creds s = (Ok tt, s2, t2) →
  s2 = set_token_file (JsonArray (_service_principal_creds s)) s
  ∧ writes t2 = 1.
Proof.
  rewrite persist_run.
  destruct (outcome_of (MsalSecretStore._build_persistence s)); [|done].
  destruct (save_fault s); simpl; intros ?; simplify_eq. split; [done|].
  unfold writes. rewrite List.filter_app.
  by destruct (build_trace_cases s) as [->|[msg ->]].
Qed.





(** ** Retrieving a credential *)

(** What [retrieve] does once the reload has produced the list [l]. *)
Lemma retrieve_loaded (sp_id tenant : string) (s : store) (l : list entry) :
  current_records s = Some l →
  MsalSecretStore.retrieve_secret_of_service_principal sp_id tenant s
  = let s1 := set_creds l s in
    let t1 := trace_of (MsalSecretStore._load_cached_creds s) in
    match comprehension (id_is sp_id) l with
    | Raise ex => (Raise ex, s1, t1)
    | Ok [] => (Raise (CLIError (MsalSecretStore.not_logged_in_msg sp_id)), s1, t1)
    | Ok (first :: rest) =>
        match comprehension (tenant_is tenant) (first :: rest) with
        | Raise ex => (Raise ex, s1, t1)
        | Ok (c :: _) => (Ok (secret_or_certificate c), s1, t1)
        | Ok [] =>
            match getitem first _SERVICE_PRINCIPAL_TENANT with
            | Raise ex => (Raise ex, s1, t1)
            | Ok other =>
                (Ok (secret_or_certificate first), s1,
                 t1 ++ [EvWarning (MsalSecretStore.cross_tenant_msg sp_id tenant other)])
            end
        end
    end.
Proof.
  intros H. rewrite retrieve_run.
  destruct (load_current s l H) as [Hl _]. rewrite Hl at 1. done.
Qed.



Lemma filter_id_comprehension (sp_id : string) (l : list entry) :
  Forall well_formed l →
  comprehension (id_is sp_id) l
  = Ok (filter (λ x, x !! _SERVICE_PRINCIPAL_ID = Some sp_id) l).
Proof.
  intros H. apply comprehension_filter.
  eapply Forall_impl; [exact H|]. intros x [Hi _]. by apply id_is_spec.
Qed.

Lemma filter_tenant_comprehension (tenant : string) (l : list entry) :
  Forall well_formed l →
  comprehension (tenant_is tenant) l
  = Ok (filter (λ x, x !! _SERVICE_PRINCIPAL_TENANT = Some tenant) l).
Proof.
  intros H. apply comprehension_filter.
  eapply Forall_impl; [exact H|]. intros x [_ Ht]. by apply tenant_is_spec.
Qed.

Lemma Forall_filter_sub {A : Type} (P Q : A → Prop) `{!∀ x, Decision (P x)}
    (l : list A) :
  Forall Q l → Forall Q (filter P l).
Proof.
  rewrite !Forall_forall. intros HQ x Hx.
  apply list_elem_of_filter in Hx as [_ Hx]. by apply HQ.
Qed.

Lemma filter_none {A : Type} (P : A → Prop) `{!∀ x, Decision (P x)} (l : list A) :
  Forall (λ x, ¬ P x) l → filter P l = [].
Proof.
  induction 1 as [|x l Hx _ IH]; [done|]. by rewrite filter_cons_False.
Qed.



Lemma secret_or_certificate_cases (cred : entry) :
  secret_or_certificate cred
  = match cred !! _SERVICE_PRINCIPAL_SECRET with
    | Some (String a v) => Some (String a v)
    | _ => cred !! _SERVICE_PRINCIPAL_CERT_FILE
    end.
Proof.
  unfold secret_or_certificate, py_or, truthy.
  by destruct (cred !! _SERVICE_PRINCIPAL_SECRET) as [[|a v]|].
Qed.

(** C10. With well-formed current records, as soon as one record carries the
    id asked for, [retrieve] returns normally, and what it returns is read
    off one record [cred] with that id: its [secret] when present and
    non-empty, else its [certificateFile] when present, else [None]. A record
    written by the legacy serializer (secret under [accessToken]) therefore
    yields [None], and a record with an empty [secret] yields its certificate
    path. *)
Theorem retrieve_matched_returns (s : store) (sp_id tenant : string)
    (l : list entry) :
  current_records s = Some l →
  Forall well_formed l →
  (∃ x, x ∈ l ∧ x !! _SERVICE_PRINCIPAL_ID = Some sp_id) →
  ∃ cred,
    cred ∈ l
    ∧ cred !! _SERVICE_PRINCIPAL_ID = Some sp_id
    ∧ outcome_of (MsalSecretStore.retrieve_secret_of_service_principal sp_id tenant s)
      = Ok (match cred !! _SERVICE_PRINCIPAL_SECRET with
            | Some (String a v) => Some (String a v)
            | _ => cred !! _SERVICE_PRINCIPAL_CERT_FILE
            end).
Proof.
  intros Hcur Hwf (x & Hin & Hid).
  rewrite (retrieve_loaded _ _ _ _ Hcur). cbn zeta.
  rewrite (filter_id_comprehension _ _ Hwf).
  set (P := λ x : entry, x !! _SERVICE_PRINCIPAL_ID = Some sp_id) in *.
  assert (Hwfm : Forall well_formed (filter P l)) by by apply Forall_filter_sub.
  assert (Hsub : ∀ y, y ∈ filter P l → y ∈ l ∧ P y).
  { intros y Hy. by apply list_elem_of_filter in Hy as [? ?]. }
  destruct (filter P l) as [|first rest] eqn:Hm.
  { exfalso. eapply (filter_nil_not_elem_of P l x); done. }
  rewrite (filter_tenant_comprehension _ _ Hwfm).
  set (Q := λ x : entry, x !! _SERVICE_PRINCIPAL_TENANT = Some tenant) in *.
  destruct (filter Q (first :: rest)) as [|c ?] eqn:Hq.
  - destruct (Hsub first) as [Hfl Hfp]; [by left|].
    apply Forall_cons in Hwfm as [[_ [other Hother]] _].
    exists first. split; [done|]. split; [done|].
    unfold getitem. rewrite Hother. unfold outcome_of; simpl.
    by rewrite secret_or_certificate_cases.
  - assert (c ∈ filter Q (first :: rest)) as Hc by (rewrite Hq; by left).
    apply list_elem_of_filter in Hc as [_ Hc].
    destruct (Hsub c Hc) as [Hcl Hcp].
    exists c. split; [done|]. split; [done|].
    unfold outcome_of; simpl. by rewrite secret_or_certificate_cases.
Qed.

Lemma retrieve_matched_returns_witness :
  ∃ cred,
    cred ∈ [ServicePrincipalAuth.get_entry_to_persist_legacy
              (ServicePrincipalAuth.mk "sp1" "t1" (ServicePrincipalAuth.Secret "abc"))]
    ∧ cred !! _SERVICE_PRINCIPAL_ID = Some "sp1"
    ∧ outcome_of (MsalSecretStore.retrieve_secret_of_service_principal "sp1" "t1"
                    (store_with
                       [ServicePrincipalAuth.get_entry_to_persist_legacy
                          (ServicePrincipalAuth.mk "sp1" "t1"
                             (ServicePrincipalAuth.Secret "abc"))]))
      = Ok (match cred !! _SERVICE_PRINCIPAL_SECRET with
            | Some (String a v) => Some (String a v)
            | _ => cred !! _SERVICE_PRINCIPAL_CERT_FILE
            end).
Proof.
  apply (retrieve_matched_returns
           (store_with
              [ServicePrincipalAuth.get_entry_to_persist_legacy
                 (ServicePrincipalAuth.mk "sp1" "t1" (ServicePrincipalAuth.Secret "abc"))])
           "sp1" "t1" _ eq_refl).
  - repeat constructor; by eexists.
  - eexists. split; [by left|reflexivity].
Defined.

Example retrieve_legacy_entry :
  outcome_of (MsalSecretStore.retrieve_secret_of_service_principal "sp1" "t1"
                (store_with
                   [ServicePrincipalAuth.get_entry_to_persist_legacy
                      (ServicePrincipalAuth.mk "sp1" "t1"
                         (ServicePrincipalAuth.Secret "abc"))]))
  = Ok None.
Proof. vm_compute. reflexivity. Qed.

Example retrieve_empty_secret :
  outcome_of (MsalSecretStore.retrieve_secret_of_service_principal "sp1" "t1"
                (store_with
                   [<[_SERVICE_PRINCIPAL_SECRET := EmptyString]>
                      (cert_entry "sp1" "t1" "/home/u/sp.pem")]))
  = Ok (Some "/home/u/sp.pem").
Proof. vm_compute. reflexivity. Qed.

(** ** Uniqueness of (principal, tenant) *)

Lemma same_key_true (e x : entry) :
  MsalSecretStore.same_id_and_tenant e x = Ok true →
  key_of e = key_of x ∧ well_formed e ∧ well_formed x.
Proof.
  unfold MsalSecretStore.same_id_and_tenant, key_of, well_formed, getitem.
  destruct (e !! _SERVICE_PRINCIPAL_ID) as [a|]; cbn; [|done].
  destruct (x !! _SERVICE_PRINCIPAL_ID) as [b|]; cbn; [|done].
  case_bool_decide; [|done]. subst.
  destruct (e !! _SERVICE_PRINCIPAL_TENANT) as [c|]; cbn; [|done].
  destruct (x !! _SERVICE_PRINCIPAL_TENANT) as [d|]; cbn; [|done].
  case_bool_decide; [|done]. subst. eauto 10.
Qed.

Lemma same_key_false (e x : entry) :
  MsalSecretStore.same_id_and_tenant e x = Ok false → key_of e ≠ key_of x.
Proof.
  unfold MsalSecretStore.same_id_and_tenant, key_of, getitem.
  destruct (e !! _SERVICE_PRINCIPAL_ID) as [a|]; cbn; [|done].
  destruct (x !! _SERVICE_PRINCIPAL_ID) as [b|]; cbn; [|done].
  case_bool_decide; [|congruence]. subst.
  destruct (e !! _SERVICE_PRINCIPAL_TENANT) as [c|]; cbn; [|done].
  destruct (x !! _SERVICE_PRINCIPAL_TENANT) as [d|]; cbn; [|done].
  case_bool_decide; [done|congruence].
Qed.


Lemma list_remove_perm (x : entry) (l r : list entry) :
  list_remove x l = Ok r → l ≡ₚ x :: r.
Proof.
  revert r. induction l as [|y l IH]; intros r; cbn; [done|].
  case_bool_decide as Hy.
  - intros ?; by simplify_eq.
  - destruct (list_remove x l) as [r'|]; cbn; [|done].
    intros ?; simplify_eq. rewrite (IH r' eq_refl). apply Permutation_swap.
Qed.

Lemma list_remove_elem (x : entry) (l : list entry) :
  x ∈ l → ∃ r, list_remove x l = Ok r.
Proof.
  induction 1 as [x l|x y l _ IH]; cbn.
  - rewrite bool_decide_eq_true_2 by done. eauto.
  - case_bool_decide; [eauto|]. destruct IH as [r ->]. cbn. eauto.
Qed.

Lemma unique_append (e : entry) (l : list entry) :
  unique_keys l →
  comprehension (MsalSecretStore.same_id_and_tenant e) l = Ok [] →
  unique_keys (l ++ [e]).
Proof.
  unfold unique_keys. intros Hl Hc. rewrite fmap_app. apply NoDup_app.
  split; [done|]. split; [|apply NoDup_singleton].
  intros k Hk ->%list_elem_of_singleton.
  apply list_elem_of_fmap in Hk as (x & Hkx & Hx).
  apply comprehension_nil in Hc. rewrite Forall_forall in Hc.
  by apply (same_key_false e x (Hc x Hx)).
Qed.

Lemma unique_replace (e first : entry) (l rest removed : list entry) :
  unique_keys l →
  comprehension (MsalSecretStore.same_id_and_tenant e) l = Ok (first :: rest) →
  list_remove first l = Ok removed →
  unique_keys (removed ++ [e]).
Proof.
  unfold unique_keys. intros Hl Hc Hr.
  destruct (comprehension_inv _ _ _ Hc) as [_ Hm].
  apply Forall_cons in Hm as [[Hsame _] _].
  apply same_key_true in Hsame as [Hkey _].
  rewrite (list_remove_perm _ _ _ Hr) in Hl. rewrite fmap_cons in Hl.
  apply NoDup_cons in Hl as [Hnotin Hnd].
  rewrite fmap_app. apply NoDup_app. split; [done|].
  split; [|apply NoDup_singleton].
  intros k Hk ->%list_elem_of_singleton. simpl in Hk. by rewrite Hkey in Hk.
Qed.

Lemma unique_filter (P : entry → Prop) `{!∀ x, Decision (P x)} (l : list entry) :
  unique_keys l → unique_keys (filter P l).
Proof.
  unfold unique_keys. intros Hl. eapply sublist_NoDup; [exact Hl|].
  apply fmap_sublist, sublist_filter.
Qed.

Lemma load_unique (s : store) :
  store_unique s → store_unique (store_of (MsalSecretStore._load_cached_creds s)).
Proof.
  intros Hs. rewrite load_run.
  destruct (outcome_of (MsalSecretStore._build_persistence s)); [|exact Hs].
  destruct Hs as [Hm Hf]. unfold store_unique, store_of.
  destruct (_token_file s) eqn:Hfile; simpl; rewrite ?Hfile; done.
Qed.

Lemma persist_unique (s : store) :
  store_unique s → store_unique (store_of (MsalSecretStore._persist_cached_creds s)).
Proof.
  intros Hs. rewrite persist_run.
  destruct (outcome_of (MsalSecretStore._build_persistence s)); [|exact Hs].
  destruct (save_fault s); [exact Hs|].
  destruct Hs as [Hm Hf]. by split.
Qed.

Lemma set_creds_unique (l : list entry) (s : store) :
  store_unique s → unique_keys l → store_unique (set_creds l s).
Proof. by intros [_ Hf] Hl. Qed.

Lemma remove_all_unique (s : store) :
  store_unique s →
  store_unique (store_of (MsalSecretStore.remove_all_cached_creds s)).
Proof.
  intros Hs. rewrite remove_all_run.
  destruct (_token_file s) eqn:Hfile; destruct (unlink_fault s) as [[]|];
    try exact Hs; destruct Hs as [Hm _]; by split.
Qed.

(** C8. Uniqueness of [(servicePrincipalId, servicePrincipalTenant)] over
    the in-memory list and over the stored array is preserved by [save],
    [remove] and [remove_all], whether the operation returns normally or
    raises. *)
Theorem unique_keys_preserved (s : store) :
  store_unique s →
  (∀ sp_entry,
     store_unique (store_of (MsalSecretStore.save_service_principal_cred sp_entry s)))
  ∧ (∀ user_or_sp,
       store_unique (store_of (MsalSecretStore.remove_cached_creds user_or_sp s)))
  ∧ store_unique (store_of (MsalSecretStore.remove_all_cached_creds s)).
Proof.
  intros Hs. pose proof (load_unique s Hs) as Hl.
  destruct (MsalSecretStore._load_cached_creds s) as [[[[]|ex] s1] t1] eqn:Hrun;
    unfold store_of in Hl; simpl in Hl.
  2: { split; [|split]; intros; rewrite ?save_run, ?remove_run, ?Hrun;
         try exact Hl.
       by apply remove_all_unique. }
  split; [|split].
  - intros e. rewrite save_run, Hrun.
    destruct (comprehension (MsalSecretStore.same_id_and_tenant e)
                (_service_principal_creds s1)) as [[|first rest]|ex] eqn:Hc;
      [| |exact Hl].
    + pose proof (persist_unique
                    (set_creds (_service_principal_creds s1 ++ [e]) s1)) as Hp.
      destruct (MsalSecretStore._persist_cached_creds _) as [[r s2] t2].
      apply Hp, set_creds_unique; [done|].
      apply unique_append; [apply Hl|done].
    + destruct (content_differs e first); [|exact Hl].
      destruct (list_remove first (_service_principal_creds s1))
        as [removed|ex] eqn:Hr; [|exact Hl].
      pose proof (persist_unique (set_creds (removed ++ [e]) s1)) as Hp.
      destruct (MsalSecretStore._persist_cached_creds _) as [[r s2] t2].
      apply Hp, set_creds_unique; [done|].
      eapply unique_replace; [apply Hl|done..].
  - intros sp. rewrite remove_run, Hrun.
    destruct (comprehension (owned_by sp) (_service_principal_creds s1))
      as [[|first rest]|ex]; [exact Hl| |exact Hl].
    pose proof (persist_unique
                  (set_creds (filter (λ x, x ∉ first :: rest)
                                (_service_principal_creds s1)) s1)) as Hp.
    destruct (MsalSecretStore._persist_cached_creds _) as [[r s2] t2].
    apply Hp, set_creds_unique; [done|]. apply unique_filter, Hl.
  - by apply remove_all_unique.
Qed.

Lemma unique_keys_preserved_witness :
  store_unique
    (store_of (MsalSecretStore.save_service_principal_cred
                 (secret_entry "sp1" "t2" "def")
                 (store_with [secret_entry "sp1" "t1" "abc"])))
  ∧ store_unique
      (store_of (MsalSecretStore.remove_cached_creds "sp1"
                   (store_with [secret_entry "sp1" "t1" "abc"])))
  ∧ store_unique
      (store_of (MsalSecretStore.remove_all_cached_creds
                   (store_with [secret_entry "sp1" "t1" "abc"]))).
Proof.
  assert (store_unique (store_with [secret_entry "sp1" "t1" "abc"])) as Hs.
  { split; simpl; [apply NoDup_nil_2|apply NoDup_singleton]. }
  destruct (unique_keys_preserved _ Hs) as (Hsave & Hremove & Hall).
  split; [apply Hsave|split; [apply Hremove|apply Hall]].
Defined.

(** ** Write avoidance *)

Lemma writes_app (t1 t2 : list event) : writes (t1 ++ t2) = writes t1 + writes t2.
Proof. unfold writes. by rewrite List.filter_app, length_app. Qed.

Lemma build_no_write (s : store) :
  writes (trace_of (MsalSecretStore._build_persistence s)) = 0.
Proof. by destruct (build_trace_cases s) as [->|[msg ->]]. Qed.

Lemma load_no_write (s : store) :
  writes (trace_of (MsalSecretStore._load_cached_creds s)) = 0.
Proof.
  rewrite load_run. pose proof (build_no_write s) as Hb.
  destruct (outcome_of (MsalSecretStore._build_persistence s)); [|done].
  destruct (_token_file s); unfold trace_of in *; simpl;
    by rewrite writes_app, Hb.
Qed.




Lemma current_after_persist (s s2 : store) (l c : list entry) (t2 : list event) :
  current_records s = Some l →
  MsalSecretStore._persist_cached_creds (set_creds c (set_creds l s)) = (Ok tt, s2, t2) →
  current_records s2 = Some c ∧ writes t2 = 1.
Proof.
  intros Hcur Hp. destruct (persist_inv _ _ _ Hp) as [-> Hw]. split; [|done].
  simpl. apply current_set_token_file.
  rewrite !current_set_creds, Hcur. simpl.
  destruct (_token_file s); simpl; eauto.
Qed.



(** ** Last write wins *)

(** C1 fails on the code. After [save] of (sp1, t1, secret abc), a [save] of
    (sp1, t1, secret xyz) returns normally without touching the list or the
    backend, because the comparison reads [accessToken] where
    [get_entry_to_persist] writes [secret]; [retrieve] then still returns
    abc. The same sequence with a changed certificate path, which the
    comparison does read, replaces the record. *)
Theorem changed_secret_is_not_saved :
  outcome_of first_save = Ok tt
  ∧ outcome_of second_save = Ok tt
  ∧ writes (trace_of second_save) = 0
  ∧ _service_principal_creds (store_of second_save) = [secret_entry "sp1" "t1" "abc"]
  ∧ _token_file (store_of second_save) = JsonArray [secret_entry "sp1" "t1" "abc"]
  ∧ outcome_of (MsalSecretStore.retrieve_secret_of_service_principal "sp1" "t1"
                  (store_of second_save)) = Ok (Some "abc")
  ∧ outcome_of
      (MsalSecretStore.retrieve_secret_of_service_principal "sp1" "t1"
         (store_of (MsalSecretStore.save_service_principal_cred
                      (cert_entry "sp1" "t1" "/new.pem")
                      (store_of (MsalSecretStore.save_service_principal_cred
                                   (cert_entry "sp1" "t1" "/old.pem") fresh_store)))))
    = Ok (Some "/new.pem").
Proof. repeat split; vm_compute; reflexivity. Qed.

(** ** Migration of the legacy cache *)

(** C3 fails on the code. [migrate_tokens] raises [NameError] on every call,
    whatever the legacy cache holds and also when it is absent or empty:
    after the warning it evaluates [AdalCredentialCache], which identity.py
    never binds, so no entry is read, none is migrated and the store is left
    as it was. *)
Theorem migrate_tokens_aborts
    (acquire_token_by_refresh_token : string → string → entry)
    (resource_to_scopes : string → string) (dict_repr : entry → string)
    (arity_mismatch : string) (entries : list entry) (s : store) :
  Identity.migrate_tokens acquire_token_by_refresh_token resource_to_scopes dict_repr
    arity_mismatch entries s
  = (Raise (NameError "AdalCredentialCache"), s,
     [EvWarning "Migrating token cache from ADAL to MSAL."]).
Proof.
  unfold Identity.migrate_tokens. unfold_M.
  assert (Identity.load_global "AdalCredentialCache"
          = Raise (NameError "AdalCredentialCache")) as -> by (vm_compute; reflexivity).
  reflexivity.
Qed.

(** The loop under that statement, taken on its own: only [CLIError] is
    caught around an entry, so a service-principal entry without a tenant and
    a user entry without [_authority] raise [KeyError] out of the loop before
    the valid entry behind them is reached, and a complete user entry raises
    the arity [TypeError] of [_build_persistent_msal_app]. *)
Example migrate_loop_lets_other_errors_through
    (acquire_token_by_refresh_token : string → string → entry)
    (resource_to_scopes : string → string) (dict_repr : entry → string)
    (arity_mismatch : string) :
  Identity.migrate_loop acquire_token_by_refresh_token resource_to_scopes dict_repr
    arity_mismatch [legacy_sp_entry_no_tenant; legacy_sp_entry] fresh_store
  = (Raise (KeyError _SERVICE_PRINCIPAL_TENANT), fresh_store, [])
  ∧ outcome_of
      (Identity.migrate_loop acquire_token_by_refresh_token resource_to_scopes
         dict_repr arity_mismatch
         [legacy_user_entry_no_authority; legacy_user_entry] fresh_store)
    = Raise (KeyError "_authority")
  ∧ outcome_of
      (Identity.migrate_loop acquire_token_by_refresh_token resource_to_scopes
         dict_repr arity_mismatch [legacy_user_entry] fresh_store)
    = Raise (TypeError arity_mismatch).
Proof. repeat split; vm_compute; reflexivity. Qed.

(** * Further properties of the same code *)

(** ** Shape of the persisted entries *)

Lemma entry_keys_distinct :
  _SERVICE_PRINCIPAL_ID ≠ _SERVICE_PRINCIPAL_TENANT
  ∧ _SERVICE_PRINCIPAL_ID ≠ _SERVICE_PRINCIPAL_SECRET
  ∧ _SERVICE_PRINCIPAL_ID ≠ _SERVICE_PRINCIPAL_CERT_FILE
  ∧ _SERVICE_PRINCIPAL_TENANT ≠ _SERVICE_PRINCIPAL_SECRET
  ∧ _SERVICE_PRINCIPAL_TENANT ≠ _SERVICE_PRINCIPAL_CERT_FILE
  ∧ _SERVICE_PRINCIPAL_SECRET ≠ _SERVICE_PRINCIPAL_CERT_FILE.
Proof. repeat split; discriminate. Qed.

Lemma persisted_entry_lookup (a : ServicePrincipalAuth.t) :
  ServicePrincipalAuth.get_entry_to_persist a !! _SERVICE_PRINCIPAL_ID
  = Some (ServicePrincipalAuth.client_id a)
  ∧ ServicePrincipalAuth.get_entry_to_persist a !! _SERVICE_PRINCIPAL_TENANT
    = Some (ServicePrincipalAuth.tenant_id a)
  ∧ ServicePrincipalAuth.get_entry_to_persist a !! _ACCESS_TOKEN = None
  ∧ match ServicePrincipalAuth.cred a with
    | ServicePrincipalAuth.Secret sec =>
        ServicePrincipalAuth.get_entry_to_persist a !! _SERVICE_PRINCIPAL_SECRET
        = Some sec
        ∧ ServicePrincipalAuth.get_entry_to_persist a !! _SERVICE_PRINCIPAL_CERT_FILE
          = None
    | ServicePrincipalAuth.Certificate path _ =>
        ServicePrincipalAuth.get_entry_to_persist a !! _SERVICE_PRINCIPAL_SECRET
        = None
        ∧ ServicePrincipalAuth.get_entry_to_persist a !! _SERVICE_PRINCIPAL_CERT_FILE
          = Some path
    end.
Proof.
  unfold ServicePrincipalAuth.get_entry_to_persist.
  destruct a as [c t [sec|path th]]; simpl; repeat split;
    by simplify_map_eq.
Qed.

(** X1. [ServicePrincipalAuth.__init__] raises the missing-credential
    [CLIError] when both arguments are [None] or empty. When it returns, the
    entry of [get_entry_to_persist] carries the id and the tenant, exactly
    one of [secret] and [certificateFile], and that field is non-empty; a
    non-empty certificate file wins over any secret. *)
Theorem constructed_entry_shape (cert_digest : string → result string)
    (c t : string) (secret cert : option string) :
  (truthy secret = false → truthy cert = false →
   ServicePrincipalAuth.__init__ cert_digest c t secret cert
   = Raise (CLIError ("Missing secret or certificate in order to "
                      +:+ "authenticate through a service principal")))
  ∧ (∀ a, ServicePrincipalAuth.__init__ cert_digest c t secret cert = Ok a →
       ServicePrincipalAuth.get_entry_to_persist a !! _SERVICE_PRINCIPAL_ID = Some c
       ∧ ServicePrincipalAuth.get_entry_to_persist a !! _SERVICE_PRINCIPAL_TENANT
         = Some t
       ∧ (ServicePrincipalAuth.get_entry_to_persist a !! _SERVICE_PRINCIPAL_SECRET
          = None
          ↔ is_Some (ServicePrincipalAuth.get_entry_to_persist a
                       !! _SERVICE_PRINCIPAL_CERT_FILE))
       ∧ truthy (secret_or_certificate (ServicePrincipalAuth.get_entry_to_persist a))
         = true
       ∧ (if truthy cert
          then ServicePrincipalAuth.get_entry_to_persist a
                 !! _SERVICE_PRINCIPAL_CERT_FILE = cert
          else ServicePrincipalAuth.get_entry_to_persist a
                 !! _SERVICE_PRINCIPAL_SECRET = secret)).
Proof.
  split.
  - intros Hs Hc. unfold ServicePrincipalAuth.__init__, py_or.
    by rewrite Hs, Hc.
  - intros a. unfold ServicePrincipalAuth.__init__, py_or.
    destruct cert as [[|x path]|]; destruct secret as [[|y sec]|]; cbn;
      try done;
      try (destruct (cert_digest (String x path)) as [th|]; cbn; [|done]);
      intros Ha; cbv [mret result_ret] in Ha; simplify_eq;
      match goal with
      | |- context [ServicePrincipalAuth.get_entry_to_persist ?a] =>
          destruct (persisted_entry_lookup a) as (Hi & Ht & _ & Hsc);
          simpl in Hi, Ht, Hsc; destruct Hsc as [Hsec Hcert]
      end;
      unfold secret_or_certificate, py_or; rewrite Hi, Ht, Hsec, Hcert; simpl;
      repeat split; try done; try (by intros [? ?]); eauto.
Qed.

Lemma constructed_entry_shape_witness :
  ServicePrincipalAuth.__init__ (λ _, Ok "00:11") "sp1" "t1" (Some EmptyString) None
  = Raise (CLIError ("Missing secret or certificate in order to "
                     +:+ "authenticate through a service principal"))
  ∧ truthy (secret_or_certificate
              (ServicePrincipalAuth.get_entry_to_persist
                 (ServicePrincipalAuth.mk "sp1" "t1"
                    (ServicePrincipalAuth.Certificate "/sp.pem" "00:11")))) = true.
Proof.
  split.
  - apply (proj1 (constructed_entry_shape (λ _, Ok "00:11") "sp1" "t1"
                    (Some EmptyString) None)); reflexivity.
  - apply (proj2 (constructed_entry_shape (λ _, Ok "00:11") "sp1" "t1"
                    (Some "abc") (Some "/sp.pem")) _ eq_refl).
Defined.

(** ** What a successful save leaves behind *)

Lemma same_key_spec (e x : entry) :
  well_formed e → well_formed x →
  MsalSecretStore.same_id_and_tenant e x = Ok (bool_decide (key_of e = key_of x)).
Proof.
  intros [[a Ha] [c Hc]] [[b Hb] [d Hd]].
  unfold MsalSecretStore.same_id_and_tenant, key_of, getitem.
  rewrite Ha, Hb, Hc, Hd. cbn.
  case_bool_decide as Hab; cbn.
  - subst. f_equal. apply bool_decide_ext. split; congruence.
  - f_equal. symmetry. apply bool_decide_eq_false_2. congruence.
Qed.

Lemma list_remove_first_match (e first : entry) (l rest : list entry) :
  comprehension (MsalSecretStore.same_id_and_tenant e) l = Ok (first :: rest) →
  first ∈ l ∧ key_of first = key_of e ∧ well_formed e ∧ well_formed first
  ∧ ∃ removed, list_remove first l = Ok removed ∧ l ≡ₚ first :: removed.
Proof.
  intros Hc. destruct (comprehension_inv _ _ _ Hc) as [_ Hm].
  apply Forall_cons in Hm as [[Hsame Hin] _].
  apply same_key_true in Hsame as (Hk & He & Hf).
  destruct (list_remove_elem first l Hin) as [removed Hr].
  split; [done|]. split; [done|]. split; [done|]. split; [done|].
  exists removed. split; [done|]. by apply list_remove_perm.
Qed.

(** The three ways [save_service_principal_cred] returns normally. *)
Lemma save_ok_cases (s : store) (l : list entry) (e : entry) :
  current_records s = Some l →
  outcome_of (MsalSecretStore.save_service_principal_cred e s) = Ok tt →
  (current_records (store_of (MsalSecretStore.save_service_principal_cred e s))
   = Some l
   ∧ writes (trace_of (MsalSecretStore.save_service_principal_cred e s)) = 0
   ∧ ∃ first, first ∈ l ∧ key_of first = key_of e
              ∧ content_differs e first = false)
  ∨ (current_records (store_of (MsalSecretStore.save_service_principal_cred e s))
     = Some (l ++ [e])
     ∧ writes (trace_of (MsalSecretStore.save_service_principal_cred e s)) = 1
     ∧ key_of e ∉ key_of <$> l)
  ∨ (∃ first removed,
       current_records (store_of (MsalSecretStore.save_service_principal_cred e s))
       = Some (removed ++ [e])
       ∧ writes (trace_of (MsalSecretStore.save_service_principal_cred e s)) = 1
       ∧ l ≡ₚ first :: removed ∧ key_of first = key_of e
       ∧ well_formed e ∧ content_differs e first = true).
Proof.
  intros Hcur. rewrite (save_run e s).
  destruct (load_current s l Hcur) as [Hl Hcur1]. rewrite Hl.
  pose proof (load_no_write s) as Hw. simpl.
  destruct (comprehension (MsalSecretStore.same_id_and_tenant e) l)
    as [[|first rest]|ex] eqn:Hc; [| |done].
  - destruct (MsalSecretStore._persist_cached_creds _) as [[[[]|ex] s2] t2] eqn:Hp;
      [|done].
    intros _. destruct (current_after_persist _ _ _ _ _ Hcur Hp) as [Hcur2 Hw2].
    right. left. unfold store_of, trace_of in *; simpl.
    rewrite writes_app, Hw, Hw2. repeat split; try done.
    intros Hk. apply list_elem_of_fmap in Hk as (x & Hkx & Hx).
    apply comprehension_nil in Hc. rewrite Forall_forall in Hc.
    by apply (same_key_false e x (Hc x Hx)).
  - destruct (list_remove_first_match _ _ _ _ Hc)
      as (Hin & Hk & He & Hf & removed & Hr & Hperm).
    destruct (content_differs e first) eqn:Hd.
    + rewrite Hr.
      destruct (MsalSecretStore._persist_cached_creds _) as [[[[]|ex] s2] t2] eqn:Hp;
        [|done].
      intros _. destruct (current_after_persist _ _ _ _ _ Hcur Hp) as [Hcur2 Hw2].
      right. right. exists first, removed.
      unfold store_of, trace_of in *; simpl.
      rewrite writes_app, Hw, Hw2.
      split; [done|]. split; [done|]. split; [done|]. split; [done|].
      by split.
    + intros _. left. unfold store_of, trace_of in *; simpl.
      repeat split; try done. by exists first.
Qed.

Lemma retrieve_last (s : store) (r : list entry) (e : entry) (sp_id tenant : string) :
  current_records s = Some (r ++ [e]) →
  Forall well_formed r →
  e !! _SERVICE_PRINCIPAL_ID = Some sp_id →
  e !! _SERVICE_PRINCIPAL_TENANT = Some tenant →
  key_of e ∉ key_of <$> r →
  outcome_of (MsalSecretStore.retrieve_secret_of_service_principal sp_id tenant s)
  = Ok (secret_or_certificate e).
Proof.
  intros Hcur Hwf Hid Hten Hnew.
  assert (Hwf' : Forall well_formed (r ++ [e])).
  { apply Forall_app. split; [done|]. constructor; [|done]. split; eauto. }
  rewrite (retrieve_loaded _ _ _ _ Hcur). cbn zeta.
  rewrite (filter_id_comprehension _ _ Hwf').
  set (P := λ x : entry, x !! _SERVICE_PRINCIPAL_ID = Some sp_id) in *.
  set (Q := λ x : entry, x !! _SERVICE_PRINCIPAL_TENANT = Some tenant) in *.
  assert (Hwfm : Forall well_formed (filter P (r ++ [e])))
    by by apply Forall_filter_sub.
  assert (HQ : filter Q (filter P (r ++ [e])) = [e]).
  { rewrite filter_app, (filter_cons_True P e []) by done.
    rewrite filter_nil, filter_app, (filter_cons_True Q e []) by done.
    rewrite filter_nil, filter_none; [done|].
    apply Forall_forall. intros x Hx HQx.
    apply list_elem_of_filter in Hx as [HPx Hx]. apply Hnew.
    apply list_elem_of_fmap. exists x. split; [|done].
    unfold key_of. by rewrite Hid, Hten, HPx, HQx. }
  destruct (filter P (r ++ [e])) as [|first rest] eqn:Hm.
  { by rewrite filter_nil in HQ. }
  unfold P, Q in *. by rewrite (filter_tenant_comprehension _ _ Hwfm), HQ.
Qed.



(** X3. A save that returns normally keeps every record whose key differs
    from the saved entry's, adds no record other than the entry itself, and
    changes the number of records by at most one. *)
Theorem save_keeps_other_records (s : store) (l : list entry) (e : entry) :
  current_records s = Some l →
  outcome_of (MsalSecretStore.save_service_principal_cred e s) = Ok tt →
  ∃ l',
    current_records (store_of (MsalSecretStore.save_service_principal_cred e s))
    = Some l'
    ∧ (∀ x, x ∈ l → key_of x ≠ key_of e → x ∈ l')
    ∧ (∀ x, x ∈ l' → x = e ∨ x ∈ l)
    ∧ (length l' = length l ∨ length l' = S (length l)).
Proof.
  intros Hcur Hok.
  destruct (save_ok_cases s l e Hcur Hok)
    as [(Hcur2 & _ & _)|[(Hcur2 & _ & _)|(first & removed & Hcur2 & _ & Hperm & Hk & _)]].
  - exists l. split; [done|]. split; [done|]. split; [by right|by left].
  - exists (l ++ [e]). split; [done|]. split; [|split].
    + intros x Hx _. apply elem_of_app. by left.
    + intros x [Hx|Hx%list_elem_of_singleton]%elem_of_app; [by right|by left].
    + right. rewrite length_app. simpl. lia.
  - exists (removed ++ [e]). split; [done|]. split; [|split].
    + intros x Hx Hne. rewrite Hperm in Hx.
      apply elem_of_cons in Hx as [->|Hx]; [done|].
      apply elem_of_app. by left.
    + intros x [Hx|Hx%list_elem_of_singleton]%elem_of_app; [right|by left].
      rewrite Hperm. by right.
    + left. rewrite Hperm, length_app. simpl. lia.
Qed.

Lemma save_keeps_other_records_witness :
  ∃ l',
    current_records
      (store_of (MsalSecretStore.save_service_principal_cred
                   (cert_entry "sp1" "t1" "/new.pem")
                   (store_with [secret_entry "sp2" "t1" "abc";
                                cert_entry "sp1" "t1" "/old.pem"])))
    = Some l'
    ∧ (∀ x, x ∈ [secret_entry "sp2" "t1" "abc"; cert_entry "sp1" "t1" "/old.pem"] →
            key_of x ≠ key_of (cert_entry "sp1" "t1" "/new.pem") → x ∈ l')
    ∧ (∀ x, x ∈ l' →
            x = cert_entry "sp1" "t1" "/new.pem"
            ∨ x ∈ [secret_entry "sp2" "t1" "abc"; cert_entry "sp1" "t1" "/old.pem"])
    ∧ (length l'
       = length [secret_entry "sp2" "t1" "abc"; cert_entry "sp1" "t1" "/old.pem"]
       ∨ length l'
         = S (length [secret_entry "sp2" "t1" "abc";
                      cert_entry "sp1" "t1" "/old.pem"])).
Proof.
  apply (save_keeps_other_records
           (store_with [secret_entry "sp2" "t1" "abc"; cert_entry "sp1" "t1" "/old.pem"])
           _ (cert_entry "sp1" "t1" "/new.pem") eq_refl).
  vm_compute. reflexivity.
Defined.

(** ** What a successful remove leaves behind *)

Lemma filter_ext_in {A : Type} (P Q : A → Prop) `{!∀ x, Decision (P x)}
    `{!∀ x, Decision (Q x)} (l : list A) :
  (∀ x, x ∈ l → P x ↔ Q x) → filter P l = filter Q l.
Proof.
  induction l as [|x l IH]; intros HPQ; [done|].
  rewrite !filter_cons.
  rewrite IH by (intros y Hy; apply HPQ; by right).
  destruct (HPQ x) as [H1 H2]; [by left|].
  by destruct (decide (P x)), (decide (Q x)); try tauto.
Qed.

Lemma filter_all {A : Type} (P : A → Prop) `{!∀ x, Decision (P x)} (l : list A) :
  Forall P l → filter P l = l.
Proof.
  induction 1 as [|x l Hx _ IH]; [done|]. by rewrite filter_cons_True, IH.
Qed.

Lemma owned_by_false (sp_id : string) (x : entry) :
  owned_by sp_id x = Ok false
  ↔ is_Some (x !! _SERVICE_PRINCIPAL_ID) ∧ x !! _SERVICE_PRINCIPAL_ID ≠ Some sp_id.
Proof.
  rewrite owned_by_id_is, id_is_false. split.
  - intros (i & Hi & Hne). split; [eauto|congruence].
  - intros [[i Hi] Hne]. exists i. split; [done|congruence].
Qed.

Lemma owned_by_true (sp_id : string) (x : entry) :
  owned_by sp_id x = Ok true → x !! _SERVICE_PRINCIPAL_ID = Some sp_id.
Proof.
  unfold owned_by, getitem. destruct (x !! _SERVICE_PRINCIPAL_ID) as [i|]; cbn;
    [|done].
  case_bool_decide; [by subst|done].
Qed.

(** The two ways [remove_cached_creds] returns normally. *)
Lemma remove_ok_cases (s : store) (l : list entry) (sp_id : string) :
  current_records s = Some l →
  outcome_of (MsalSecretStore.remove_cached_creds sp_id s) = Ok tt →
  current_records (store_of (MsalSecretStore.remove_cached_creds sp_id s))
  = Some (filter (λ x, x !! _SERVICE_PRINCIPAL_ID ≠ Some sp_id) l)
  ∧ ((Forall (λ x, x !! _SERVICE_PRINCIPAL_ID ≠ Some sp_id) l
      ∧ writes (trace_of (MsalSecretStore.remove_cached_creds sp_id s)) = 0
      ∧ _token_file (store_of (MsalSecretStore.remove_cached_creds sp_id s))
        = _token_file s)
     ∨ (Exists (λ x, x !! _SERVICE_PRINCIPAL_ID = Some sp_id) l
        ∧ writes (trace_of (MsalSecretStore.remove_cached_creds sp_id s)) = 1)).
Proof.
  intros Hcur. rewrite remove_run.
  destruct (load_current s l Hcur) as [Hl Hcur1]. rewrite Hl.
  pose proof (load_no_write s) as Hw. simpl.
  destruct (comprehension (owned_by sp_id) l) as [[|first rest]|ex] eqn:Hc;
    [| |done].
  - intros _. unfold store_of, trace_of in *; simpl.
    apply comprehension_nil in Hc.
    assert (Forall (λ x, x !! _SERVICE_PRINCIPAL_ID ≠ Some sp_id) l) as Hall.
    { eapply Forall_impl; [exact Hc|]. intros x Hx. by apply owned_by_false in Hx as [_ ?]. }
    rewrite filter_all by done. split; [done|]. left. split; [done|].
    split; [done|]. by destruct s.
  - destruct (MsalSecretStore._persist_cached_creds _) as [[[[]|ex] s2] t2] eqn:Hp;
      [|done].
    intros _. destruct (current_after_persist _ _ _ _ _ Hcur Hp) as [Hcur2 Hw2].
    unfold store_of, trace_of in *; simpl.
    rewrite writes_app, Hw, Hw2.
    destruct (comprehension_inv _ _ _ Hc) as [Hall Hm].
    rewrite Forall_forall in Hall. split.
    + rewrite Hcur2. f_equal. apply filter_ext_in. intros x Hx.
      destruct (Hall x Hx) as [[Ht Hin]|Hf].
      * apply owned_by_true in Ht. split; [done|]. by intros [].
      * apply owned_by_false in Hf as [_ Hne]. split; [done|].
        intros _ Hin. rewrite Forall_forall in Hm.
        destruct (Hm x Hin) as [Ht _]. by apply owned_by_true in Ht.
    + right. split; [|done]. apply Forall_cons in Hm as [[Ht Hin] _].
      apply Exists_exists. exists first. split; [done|]. by apply owned_by_true.
Qed.

(** X4. A remove that returns normally leaves exactly the records of the
    other principals, in their stored order: the current records become the
    old ones filtered on an id different from the one removed. *)
Theorem remove_keeps_exactly_the_others (s : store) (l : list entry)
    (sp_id : string) :
  current_records s = Some l →
  outcome_of (MsalSecretStore.remove_cached_creds sp_id s) = Ok tt →
  current_records (store_of (MsalSecretStore.remove_cached_creds sp_id s))
  = Some (filter (λ x, x !! _SERVICE_PRINCIPAL_ID ≠ Some sp_id) l).
Proof. intros Hcur Hok. by destruct (remove_ok_cases s l sp_id Hcur Hok). Qed.

Lemma remove_keeps_exactly_the_others_witness :
  current_records
    (store_of (MsalSecretStore.remove_cached_creds "sp1"
                 (store_with [secret_entry "sp1" "t1" "abc";
                              secret_entry "sp2" "t1" "def";
                              secret_entry "sp1" "t2" "ghi"])))
  = Some (filter (λ x, x !! _SERVICE_PRINCIPAL_ID ≠ Some "sp1")
            [secret_entry "sp1" "t1" "abc"; secret_entry "sp2" "t1" "def";
             secret_entry "sp1" "t2" "ghi"]).
Proof.
  apply (remove_keeps_exactly_the_others
           (store_with [secret_entry "sp1" "t1" "abc"; secret_entry "sp2" "t1" "def";
                        secret_entry "sp1" "t2" "ghi"]) _ "sp1" eq_refl).
  vm_compute. reflexivity.
Defined.

(** X5. A remove that returns normally calls [persistence.save] exactly once
    when some record carries the id and not at all when none does; in the
    second case the artifact is left as it was. *)
Theorem remove_writes_only_on_change (s : store) (l : list entry)
    (sp_id : string) :
  current_records s = Some l →
  outcome_of (MsalSecretStore.remove_cached_creds sp_id s) = Ok tt →
  (Exists (λ x, x !! _SERVICE_PRINCIPAL_ID = Some sp_id) l →
   writes (trace_of (MsalSecretStore.remove_cached_creds sp_id s)) = 1)
  ∧ (Forall (λ x, x !! _SERVICE_PRINCIPAL_ID ≠ Some sp_id) l →
     writes (trace_of (MsalSecretStore.remove_cached_creds sp_id s)) = 0
     ∧ _token_file (store_of (MsalSecretStore.remove_cached_creds sp_id s))
       = _token_file s).
Proof.
  intros Hcur Hok.
  destruct (remove_ok_cases s l sp_id Hcur Hok) as [_ [(Hall & Hw & Hf)|(Hex & Hw)]].
  - split; [|done]. intros Hex. exfalso.
    apply Exists_exists in Hex as (x & Hx & Hid).
    rewrite Forall_forall in Hall. by apply (Hall x Hx).
  - split; [done|]. intros Hall. exfalso.
    apply Exists_exists in Hex as (x & Hx & Hid).
    rewrite Forall_forall in Hall. by apply (Hall x Hx).
Qed.

Lemma remove_writes_only_on_change_witness :
  writes (trace_of (MsalSecretStore.remove_cached_creds "sp1"
                      (store_with [secret_entry "sp1" "t1" "abc"]))) = 1
  ∧ writes (trace_of (MsalSecretStore.remove_cached_creds "sp2"
                        (store_with [secret_entry "sp1" "t1" "abc"]))) = 0.
Proof.
  split.
  - apply (proj1 (remove_writes_only_on_change
                    (store_with [secret_entry "sp1" "t1" "abc"]) _ "sp1"
                    eq_refl eq_refl)).
    apply Exists_cons_hd. reflexivity.
  - apply (proj2 (remove_writes_only_on_change
                    (store_with [secret_entry "sp1" "t1" "abc"]) _ "sp2"
                    eq_refl eq_refl)).
    repeat constructor. discriminate.
Defined.

(** ** What the operations never touch *)

Lemma load_file (s : store) :
  _token_file (store_of (MsalSecretStore._load_cached_creds s)) = _token_file s.
Proof.
  rewrite load_run.
  destruct (outcome_of (MsalSecretStore._build_persistence s)); [|done].
  destruct (_token_file s) eqn:Hf; unfold store_of; simpl; by rewrite ?Hf.
Qed.

Lemma no_unlink_app (t1 t2 : list event) :
  EvUnlink ∉ t1 → EvUnlink ∉ t2 → EvUnlink ∉ t1 ++ t2.
Proof. intros H1 H2 [?|?]%elem_of_app; tauto. Qed.

Lemma load_no_unlink (s : store) :
  EvUnlink ∉ trace_of (MsalSecretStore._load_cached_creds s).
Proof.
  rewrite load_run.
  assert (EvUnlink ∉ trace_of (MsalSecretStore._build_persistence s)) as Hb.
  { destruct (build_trace_cases s) as [->|[msg ->]];
      [apply not_elem_of_nil|by intros ?%list_elem_of_singleton]. }
  destruct (outcome_of (MsalSecretStore._build_persistence s)); [|done].
  destruct (_token_file s); unfold trace_of in *; simpl;
    (apply no_unlink_app; [done|]);
    intros Hin; repeat (apply elem_of_cons in Hin as [?|Hin]; [done|]);
    by apply elem_of_nil in Hin.
Qed.

(** X6. [retrieve] is read-only on every store and every outcome: it never
    calls [persistence.save], never deletes the artifact, and leaves the
    artifact as it found it. *)
Theorem retrieve_is_read_only (s : store) (sp_id tenant : string) :
  writes (trace_of (MsalSecretStore.retrieve_secret_of_service_principal sp_id tenant s))
  = 0
  ∧ (EvUnlink
     ∉ trace_of (MsalSecretStore.retrieve_secret_of_service_principal sp_id tenant s))
  ∧ _token_file
      (store_of (MsalSecretStore.retrieve_secret_of_service_principal sp_id tenant s))
    = _token_file s.
Proof.
  pose proof (load_no_write s) as Hw. pose proof (load_no_unlink s) as Hu.
  pose proof (load_file s) as Hf. rewrite retrieve_run.
  destruct (MsalSecretStore._load_cached_creds s) as [[[[]|ex] s1] t1];
    unfold store_of, trace_of in *; simpl in *; [|done].
  repeat case_match; simpl; try done.
  rewrite writes_app, Hw. split; [done|]. split; [|done].
  apply no_unlink_app; [done|]. by intros ?%list_elem_of_singleton.
Qed.

(** ** Failures of the backend *)

(** X7. When the artifact cannot be read or parsed, [retrieve], [save] and
    [remove] all raise the load-failure [CLIError] that quotes the inner
    error, leave the store exactly as it was, and release the lock after the
    one load they attempted. *)
Theorem unreadable_store_fails_every_operation (s : store) (inner : string)
    (p : persistence) :
  _token_file s = Unreadable inner →
  outcome_of (MsalSecretStore._build_persistence s) = Ok p →
  (∀ sp_id tenant,
     MsalSecretStore.retrieve_secret_of_service_principal sp_id tenant s
     = (Raise (CLIError (MsalSecretStore.load_failed_msg (BackendError inner))), s,
        trace_of (MsalSecretStore._build_persistence s)
        ++ [EvAcquire; EvLoad p; EvRelease]))
  ∧ (∀ sp_entry,
       MsalSecretStore.save_service_principal_cred sp_entry s
       = (Raise (CLIError (MsalSecretStore.load_failed_msg (BackendError inner))), s,
          trace_of (MsalSecretStore._build_persistence s)
          ++ [EvAcquire; EvLoad p; EvRelease]))
  ∧ (∀ user_or_sp,
       MsalSecretStore.remove_cached_creds user_or_sp s
       = (Raise (CLIError (MsalSecretStore.load_failed_msg (BackendError inner))), s,
          trace_of (MsalSecretStore._build_persistence s)
          ++ [EvAcquire; EvLoad p; EvRelease])).
Proof.
  intros Hf Hb.
  assert (MsalSecretStore._load_cached_creds s
          = (Raise (CLIError (MsalSecretStore.load_failed_msg (BackendError inner))), s,
             trace_of (MsalSecretStore._build_persistence s)
             ++ [EvAcquire; EvLoad p; EvRelease])) as Hl.
  { by rewrite load_run, Hb, Hf. }
  split; [|split]; intros; by rewrite ?retrieve_run, ?save_run, ?remove_run, Hl.
Qed.

Lemma unreadable_store_fails_every_operation_witness :
  MsalSecretStore.retrieve_secret_of_service_principal "sp1" "t1"
    (MsalSecretStore.__init__ "darwin" None None None (Unreadable "Expecting value") true)
  = (Raise (CLIError (MsalSecretStore.load_failed_msg (BackendError "Expecting value"))),
     MsalSecretStore.__init__ "darwin" None None None (Unreadable "Expecting value") true,
     trace_of (MsalSecretStore._build_persistence
                 (MsalSecretStore.__init__ "darwin" None None None
                    (Unreadable "Expecting value") true))
     ++ [EvAcquire; EvLoad KeychainPersistence; EvRelease]).
Proof.
  apply (unreadable_store_fails_every_operation
           (MsalSecretStore.__init__ "darwin" None None None
              (Unreadable "Expecting value") true)
           "Expecting value" KeychainPersistence eq_refl eq_refl).
Defined.

Lemma build_linux_closed (s : store) (ex : exn) :
  String.prefix "linux" (sys_platform s) = true →
  libsecret_probe s = Some ex →
  _fallback_to_plaintext s = false →
  MsalSecretStore._build_persistence s = (Raise ex, s, []).
Proof.
  intros Hp Hprobe Hfb.
  destruct (platform_exclusive (sys_platform s)) as [_ Hl].
  destruct (Hl Hp) as [Hw Hd].
  unfold MsalSecretStore._build_persistence. unfold_M. simpl.
  by rewrite Hw, Hd, Hp, Hprobe, Hfb.
Qed.

(** X8. On Linux, when the libsecret probe raises and fallback to plain text
    is not allowed, [retrieve], [save] and [remove] raise the probe's own
    exception before taking the lock or touching the backend, and leave the
    store as it was. *)
Theorem no_fallback_fails_closed (s : store) (ex : exn) :
  String.prefix "linux" (sys_platform s) = true →
  libsecret_probe s = Some ex →
  _fallback_to_plaintext s = false →
  (∀ sp_id tenant,
     MsalSecretStore.retrieve_secret_of_service_principal sp_id tenant s
     = (Raise ex, s, []))
  ∧ (∀ sp_entry,
       MsalSecretStore.save_service_principal_cred sp_entry s = (Raise ex, s, []))
  ∧ (∀ user_or_sp,
       MsalSecretStore.remove_cached_creds user_or_sp s = (Raise ex, s, [])).
Proof.
  intros Hp Hprobe Hfb.
  pose proof (build_linux_closed s ex Hp Hprobe Hfb) as Hb.
  assert (MsalSecretStore._load_cached_creds s = (Raise ex, s, [])) as Hl.
  { rewrite load_run. unfold outcome_of, trace_of. by rewrite Hb. }
  split; [|split]; intros; by rewrite ?retrieve_run, ?save_run, ?remove_run, Hl.
Qed.

Lemma no_fallback_fails_closed_witness :
  MsalSecretStore.save_service_principal_cred (secret_entry "sp1" "t1" "abc")
    (MsalSecretStore.__init__ "linux2" (Some (BackendError "no keyring")) None None
       NoArtifact false)
  = (Raise (BackendError "no keyring"),
     MsalSecretStore.__init__ "linux2" (Some (BackendError "no keyring")) None None
       NoArtifact false, []).
Proof.
  apply (no_fallback_fails_closed
           (MsalSecretStore.__init__ "linux2" (Some (BackendError "no keyring")) None
              None NoArtifact false)
           (BackendError "no keyring") eq_refl eq_refl eq_refl).
Defined.

(** ** The in-memory list after a deletion *)

Lemma retrieve_store (s : store) (sp_id tenant : string) :
  store_of (MsalSecretStore.retrieve_secret_of_service_principal sp_id tenant s)
  = store_of (MsalSecretStore._load_cached_creds s).
Proof.
  rewrite retrieve_run.
  destruct (MsalSecretStore._load_cached_creds s) as [[[[]|ex] s1] t1]; [|done].
  by repeat case_match.
Qed.






(** ** Entries the store does not validate *)

Lemma persist_ok (s : store) :
  is_Some (current_records s) → saves_succeed s →
  MsalSecretStore._persist_cached_creds s
  = (Ok tt, set_token_file (JsonArray (_service_principal_creds s)) s,
     trace_of (MsalSecretStore._persist_cached_creds s)).
Proof.
  intros [l Hcur] Hs. rewrite persist_run. unfold current_records in Hcur.
  destruct (outcome_of (MsalSecretStore._build_persistence s)); [|done].
  unfold saves_succeed in Hs. by rewrite Hs.
Qed.

Lemma current_set_creds_some (c : list entry) (s : store) :
  is_Some (current_records s) → is_Some (current_records (set_creds c s)).
Proof.
  intros [l H]. rewrite current_set_creds, H. destruct (_token_file s); eauto.
Qed.

(** X10. On an empty store [save] never looks at the entry: an entry without
    [servicePrincipalId] is accepted and persisted, and from then on every
    [retrieve], [save] and [remove] raises [KeyError]. On a store that holds
    a record, the same entry is refused with [KeyError] before any write. *)
Theorem save_does_not_validate_on_empty (s : store) (e : entry) :
  e !! _SERVICE_PRINCIPAL_ID = None →
  (current_records s = Some [] → saves_succeed s →
   outcome_of (MsalSecretStore.save_service_principal_cred e s) = Ok tt
   ∧ current_records (store_of (MsalSecretStore.save_service_principal_cred e s))
     = Some [e]
   ∧ (∀ sp_id tenant,
        outcome_of (MsalSecretStore.retrieve_secret_of_service_principal sp_id tenant
                      (store_of (MsalSecretStore.save_service_principal_cred e s)))
        = Raise (KeyError _SERVICE_PRINCIPAL_ID))
   ∧ (∀ e',
        outcome_of (MsalSecretStore.save_service_principal_cred e'
                      (store_of (MsalSecretStore.save_service_principal_cred e s)))
        = Raise (KeyError _SERVICE_PRINCIPAL_ID))
   ∧ (∀ user_or_sp,
        outcome_of (MsalSecretStore.remove_cached_creds user_or_sp
                      (store_of (MsalSecretStore.save_service_principal_cred e s)))
        = Raise (KeyError _SERVICE_PRINCIPAL_ID)))
  ∧ (∀ x l, current_records s = Some (x :: l) →
       outcome_of (MsalSecretStore.save_service_principal_cred e s)
       = Raise (KeyError _SERVICE_PRINCIPAL_ID)
       ∧ writes (trace_of (MsalSecretStore.save_service_principal_cred e s)) = 0).
Proof.
  intros He. split.
  - intros Hcur Hs.
    assert (MsalSecretStore.save_service_principal_cred e s
            = (Ok tt,
               set_token_file (JsonArray [e]) (set_creds [e] (set_creds [] s)),
               trace_of (MsalSecretStore.save_service_principal_cred e s))) as Hrun.
    { rewrite (save_run e s). destruct (load_current s [] Hcur) as [Hl _].
      rewrite Hl. simpl.
      rewrite (persist_ok (set_creds [e] (set_creds [] s))); [done| |done].
      apply current_set_creds_some, current_set_creds_some. by rewrite Hcur. }
    assert (current_records
              (store_of (MsalSecretStore.save_service_principal_cred e s))
            = Some [e]) as Hcur2.
    { rewrite Hrun. unfold store_of; simpl. apply current_set_token_file.
      apply current_set_creds_some, current_set_creds_some. by rewrite Hcur. }
    split; [by rewrite Hrun|]. split; [done|]. split; [|split].
    + intros sp_id tenant. rewrite (retrieve_loaded _ _ _ _ Hcur2).
      cbn. unfold id_is, getitem. by rewrite He.
    + intros e'. rewrite save_run.
      destruct (load_current _ _ Hcur2) as [Hl2 _]. rewrite Hl2. simpl.
      unfold MsalSecretStore.same_id_and_tenant, getitem.
      destruct (e' !! _SERVICE_PRINCIPAL_ID); cbn; by rewrite ?He.
    + intros sp. rewrite remove_run.
      destruct (load_current _ _ Hcur2) as [Hl2 _]. rewrite Hl2. simpl.
      unfold owned_by, getitem. by rewrite He.
  - intros x l Hcur.
    assert (comprehension (MsalSecretStore.same_id_and_tenant e) (x :: l)
            = Raise (KeyError _SERVICE_PRINCIPAL_ID)) as Hc.
    { cbn -[MsalSecretStore.same_id_and_tenant].
      unfold MsalSecretStore.same_id_and_tenant, getitem. by rewrite He. }
    rewrite save_run.
    destruct (load_current _ _ Hcur) as [Hl _]. rewrite Hl.
    cbn -[comprehension]. rewrite Hc.
    split; [done|]. apply load_no_write.
Qed.

Lemma save_does_not_validate_on_empty_witness :
  outcome_of (MsalSecretStore.save_service_principal_cred
                entry_without_id fresh_store) = Ok tt
  ∧ outcome_of (MsalSecretStore.retrieve_secret_of_service_principal "sp1" "t1"
                  (store_of (MsalSecretStore.save_service_principal_cred
                               entry_without_id fresh_store)))
    = Raise (KeyError _SERVICE_PRINCIPAL_ID)
  ∧ outcome_of (MsalSecretStore.save_service_principal_cred
                  entry_without_id
                  (store_with [secret_entry "sp1" "t1" "abc"]))
    = Raise (KeyError _SERVICE_PRINCIPAL_ID).
Proof.
  destruct (save_does_not_validate_on_empty fresh_store
              entry_without_id eq_refl) as [Hempty _].
  destruct (Hempty eq_refl eq_refl) as (Hok & _ & Hret & _).
  split; [exact Hok|]. split; [apply Hret|].
  apply (proj2 (save_does_not_validate_on_empty
                  (store_with [secret_entry "sp1" "t1" "abc"])
                  entry_without_id eq_refl)
           (secret_entry "sp1" "t1" "abc") [] eq_refl).
Defined.

(** ** Well-formed records stay well-formed *)

Lemma load_well_formed (s : store) :
  store_well_formed s →
  store_well_formed (store_of (MsalSecretStore._load_cached_creds s)).
Proof.
  intros Hs. rewrite load_run.
  destruct (outcome_of (MsalSecretStore._build_persistence s)); [|exact Hs].
  destruct Hs as [Hm Hf]. unfold store_well_formed, store_of.
  destruct (_token_file s) eqn:Hfile; simpl; rewrite ?Hfile; done.
Qed.

Lemma persist_well_formed (s : store) :
  store_well_formed s →
  store_well_formed (store_of (MsalSecretStore._persist_cached_creds s)).
Proof.
  intros Hs. rewrite persist_run.
  destruct (outcome_of (MsalSecretStore._build_persistence s)); [|exact Hs].
  destruct (save_fault s); [exact Hs|].
  destruct Hs as [Hm Hf]. by split.
Qed.

Lemma set_creds_well_formed (l : list entry) (s : store) :
  store_well_formed s → Forall well_formed l → store_well_formed (set_creds l s).
Proof. by intros [_ Hf] Hl. Qed.

Lemma remove_all_well_formed (s : store) :
  store_well_formed s →
  store_well_formed (store_of (MsalSecretStore.remove_all_cached_creds s)).
Proof.
  intros Hs. rewrite remove_all_run.
  destruct (_token_file s) eqn:Hfile; destruct (unlink_fault s) as [[]|];
    try exact Hs; destruct Hs as [Hm _]; by split.
Qed.

(** X11. When the in-memory list and the stored array hold only records with
    both key fields, they still do after [retrieve], [remove], [remove_all],
    and after [save] of an entry that has both key fields, on every outcome. *)
Theorem well_formed_records_preserved (s : store) :
  store_well_formed s →
  (∀ sp_entry, well_formed sp_entry →
     store_well_formed
       (store_of (MsalSecretStore.save_service_principal_cred sp_entry s)))
  ∧ (∀ user_or_sp,
       store_well_formed (store_of (MsalSecretStore.remove_cached_creds user_or_sp s)))
  ∧ store_well_formed (store_of (MsalSecretStore.remove_all_cached_creds s))
  ∧ (∀ sp_id tenant,
       store_well_formed
         (store_of (MsalSecretStore.retrieve_secret_of_service_principal
                      sp_id tenant s))).
Proof.
  intros Hs. pose proof (load_well_formed s Hs) as Hl.
  split; [|split; [|split]].
  - intros e He. rewrite save_run.
    destruct (MsalSecretStore._load_cached_creds s) as [[[[]|ex] s1] t1];
      unfold store_of in Hl; simpl in Hl; [|exact Hl].
    destruct (comprehension (MsalSecretStore.same_id_and_tenant e)
                (_service_principal_creds s1)) as [[|first rest]|ex] eqn:Hc;
      [| |exact Hl].
    + pose proof (persist_well_formed
                    (set_creds (_service_principal_creds s1 ++ [e]) s1)) as Hp.
      destruct (MsalSecretStore._persist_cached_creds _) as [[r s2] t2].
      apply Hp, set_creds_well_formed; [done|].
      apply Forall_app. split; [apply Hl|by constructor].
    + destruct (content_differs e first); [|exact Hl].
      destruct (list_remove first (_service_principal_creds s1))
        as [removed|ex] eqn:Hr; [|exact Hl].
      pose proof (persist_well_formed (set_creds (removed ++ [e]) s1)) as Hp.
      destruct (MsalSecretStore._persist_cached_creds _) as [[r s2] t2].
      apply Hp, set_creds_well_formed; [done|].
      apply Forall_app. split; [|by constructor].
      destruct Hl as [Hm _]. rewrite (list_remove_perm _ _ _ Hr) in Hm.
      by apply Forall_cons in Hm as [_ ?].
  - intros sp. rewrite remove_run.
    destruct (MsalSecretStore._load_cached_creds s) as [[[[]|ex] s1] t1];
      unfold store_of in Hl; simpl in Hl; [|exact Hl].
    destruct (comprehension (owned_by sp) (_service_principal_creds s1))
      as [[|first rest]|ex]; [exact Hl| |exact Hl].
    pose proof (persist_well_formed
                  (set_creds (filter (λ x, x ∉ first :: rest)
                                (_service_principal_creds s1)) s1)) as Hp.
    destruct (MsalSecretStore._persist_cached_creds _) as [[r s2] t2].
    apply Hp, set_creds_well_formed; [done|]. apply Forall_filter_sub, Hl.
  - by apply remove_all_well_formed.
  - intros sp_id tenant. by rewrite retrieve_store.
Qed.

Lemma well_formed_records_preserved_witness :
  store_well_formed
    (store_of (MsalSecretStore.save_service_principal_cred
                 (secret_entry "sp1" "t2" "def")
                 (store_with [secret_entry "sp1" "t1" "abc"])))
  ∧ store_well_formed
      (store_of (MsalSecretStore.remove_cached_creds "sp1"
                   (store_with [secret_entry "sp1" "t1" "abc"]))).
Proof.
  assert (store_well_formed (store_with [secret_entry "sp1" "t1" "abc"])) as Hs.
  { split; simpl; repeat constructor; by eexists. }
  destruct (well_formed_records_preserved _ Hs) as (Hsave & Hremove & _).
  split; [apply Hsave|apply Hremove].
  split; by eexists.
Defined.

(** ** Entries in the legacy shape *)

(** On a store whose backend builds, reads and saves, with well-formed
    records, saving a well-formed entry returns normally. *)
Lemma save_healthy (s : store) (l : list entry) (e : entry) :
  current_records s = Some l → Forall well_formed l → well_formed e →
  saves_succeed s →
  outcome_of (MsalSecretStore.save_service_principal_cred e s) = Ok tt.
Proof.
  intros Hcur Hwf He Hs. rewrite save_run.
  destruct (load_current s l Hcur) as [Hl Hcur1]. rewrite Hl. simpl.
  rewrite (comprehension_filter _ (λ x, key_of e = key_of x)).
  2: { eapply Forall_impl; [exact Hwf|]. intros x Hx. by apply same_key_spec. }
  assert (Hsome : ∀ c, is_Some (current_records (set_creds c (set_creds l s)))).
  { intros c. apply current_set_creds_some. by rewrite Hcur1. }
  destruct (filter (λ x, key_of e = key_of x) l) as [|first rest] eqn:Hm.
  - by rewrite (persist_ok _ (Hsome _) Hs).
  - destruct (content_differs e first); [|done].
    assert (first ∈ l) as Hin.
    { assert (first ∈ filter (λ x, key_of e = key_of x) l) as Hf
        by (rewrite Hm; by left).
      by apply list_elem_of_filter in Hf as [_ ?]. }
    destruct (list_remove_elem first l Hin) as [removed ->].
    by rewrite (persist_ok _ (Hsome _) Hs).
Qed.

Lemma legacy_entry_lookup (sp_id tenant secret : string) :
  ServicePrincipalAuth.get_entry_to_persist_legacy
    (ServicePrincipalAuth.mk sp_id tenant (ServicePrincipalAuth.Secret secret))
    !! _SERVICE_PRINCIPAL_ID = Some sp_id
  ∧ ServicePrincipalAuth.get_entry_to_persist_legacy
      (ServicePrincipalAuth.mk sp_id tenant (ServicePrincipalAuth.Secret secret))
      !! _SERVICE_PRINCIPAL_TENANT = Some tenant
  ∧ ServicePrincipalAuth.get_entry_to_persist_legacy
      (ServicePrincipalAuth.mk sp_id tenant (ServicePrincipalAuth.Secret secret))
      !! _SERVICE_PRINCIPAL_SECRET = None
  ∧ ServicePrincipalAuth.get_entry_to_persist_legacy
      (ServicePrincipalAuth.mk sp_id tenant (ServicePrincipalAuth.Secret secret))
      !! _SERVICE_PRINCIPAL_CERT_FILE = None
  ∧ ServicePrincipalAuth.get_entry_to_persist_legacy
      (ServicePrincipalAuth.mk sp_id tenant (ServicePrincipalAuth.Secret secret))
      !! "userId" = None.
Proof.
  unfold ServicePrincipalAuth.get_entry_to_persist_legacy. simpl.
  repeat split; by simplify_map_eq.
Qed.

Lemma save_new_key (s : store) (l : list entry) (e : entry) :
  current_records s = Some l →
  key_of e ∉ key_of <$> l →
  outcome_of (MsalSecretStore.save_service_principal_cred e s) = Ok tt →
  current_records (store_of (MsalSecretStore.save_service_principal_cred e s))
  = Some (l ++ [e]).
Proof.
  intros Hcur Hnew Hok.
  destruct (save_ok_cases s l e Hcur Hok)
    as [(_ & _ & first & Hin & Hk & _)
       |[(Hcur2 & _ & _)|(first & removed & _ & _ & Hperm & Hk & _)]].
  - exfalso. apply Hnew. rewrite <- Hk. by apply list_elem_of_fmap_2.
  - done.
  - exfalso. apply Hnew. rewrite <- Hk. apply list_elem_of_fmap_2.
    rewrite Hperm. by left.
Qed.

(** X14. An entry in the legacy shape, which carries the secret under
    [accessToken], cannot be read back: on a working store with well-formed
    records and no record for its key, saving such an entry returns normally
    and [retrieve] for that principal and tenant then returns [None]. *)
Theorem legacy_entry_secret_is_not_retrievable (s : store) (l : list entry)
    (sp_id tenant secret : string) :
  current_records s = Some l →
  Forall well_formed l →
  saves_succeed s →
  (Some sp_id, Some tenant) ∉ key_of <$> l →
  outcome_of
    (MsalSecretStore.save_service_principal_cred
       (ServicePrincipalAuth.get_entry_to_persist_legacy
          (ServicePrincipalAuth.mk sp_id tenant (ServicePrincipalAuth.Secret secret)))
       s) = Ok tt
  ∧ outcome_of
      (MsalSecretStore.retrieve_secret_of_service_principal sp_id tenant
         (store_of (MsalSecretStore.save_service_principal_cred
                      (ServicePrincipalAuth.get_entry_to_persist_legacy
                         (ServicePrincipalAuth.mk sp_id tenant
                            (ServicePrincipalAuth.Secret secret))) s)))
    = Ok None.
Proof.
  intros Hcur Hwf Hs Hnew.
  destruct (legacy_entry_lookup sp_id tenant secret) as (Hi & Ht & Hsec & Hcert & Hu).
  remember (ServicePrincipalAuth.get_entry_to_persist_legacy
              (ServicePrincipalAuth.mk sp_id tenant
                 (ServicePrincipalAuth.Secret secret))) as e eqn:Heqe.
  clear Heqe.
  assert (well_formed e) as He by (split; eauto).
  assert (key_of e = (Some sp_id, Some tenant)) as Hk
    by (unfold key_of; by rewrite Hi, Ht).
  pose proof (save_healthy s l e Hcur Hwf He Hs) as Hok.
  split; [done|].
  assert (current_records
            (store_of (MsalSecretStore.save_service_principal_cred e s))
          = Some (l ++ [e])) as Hcur2.
  { apply save_new_key; [done| |done]. by rewrite Hk. }
  assert (key_of e ∉ key_of <$> l) as Hnew' by by rewrite Hk.
  rewrite (retrieve_last _ l e sp_id tenant Hcur2 Hwf Hi Ht Hnew').
  unfold secret_or_certificate. by rewrite Hsec, Hcert.
Qed.

Lemma legacy_entry_secret_is_not_retrievable_witness :
  outcome_of
    (MsalSecretStore.save_service_principal_cred
       (ServicePrincipalAuth.get_entry_to_persist_legacy
          (ServicePrincipalAuth.mk "sp1" "t1" (ServicePrincipalAuth.Secret "abc")))
       fresh_store) = Ok tt
  ∧ outcome_of
      (MsalSecretStore.retrieve_secret_of_service_principal "sp1" "t1"
         (store_of (MsalSecretStore.save_service_principal_cred
                      (ServicePrincipalAuth.get_entry_to_persist_legacy
                         (ServicePrincipalAuth.mk "sp1" "t1"
                            (ServicePrincipalAuth.Secret "abc"))) fresh_store)))
    = Ok None.
Proof.
  apply (legacy_entry_secret_is_not_retrievable fresh_store [] "sp1" "t1" "abc"
           eq_refl).
  - constructor.
  - reflexivity.
  - apply not_elem_of_nil.
Defined.

(** ** Logging in with a service principal *)

Lemma login_run (acquire : string → string → result unit)
    (cert_digest : string → result string) (self : Identity.t)
    (client_id : string) (a : Ascii.ascii) (secret : string) (s : store) :
  acquire client_id (String a secret) = Ok tt →
  Identity.login_with_service_principal acquire cert_digest self client_id
    (String a secret) s
  = MsalSecretStore.save_service_principal_cred
      (secret_entry client_id (Identity.tenant_id self) (String a secret)) s.
Proof.
  intros Ha. unfold Identity.login_with_service_principal. unfold_M.
  rewrite Ha. cbn -[MsalSecretStore.save_service_principal_cred].
  by destruct (MsalSecretStore.save_service_principal_cred _ s) as [[r s1] t1].
Qed.

(** X15. [login_with_service_principal] fails without touching the store when
    the broker rejects the credential, and with the missing-credential
    [CLIError] when the credential is empty. When it returns normally for a
    principal and tenant that had no record, [get_service_principal_credential]
    for that client on the resulting store returns the credential just used. *)
Theorem login_then_get_credential (acquire : string → string → result unit)
    (cert_digest : string → result string) (self : Identity.t)
    (client_id secret : string) (s : store) :
  (∀ ex, acquire client_id secret = Raise ex →
     Identity.login_with_service_principal acquire cert_digest self client_id secret s
     = (Raise ex, s, []))
  ∧ (acquire client_id secret = Ok tt → secret = EmptyString →
     Identity.login_with_service_principal acquire cert_digest self client_id secret s
     = (Raise (CLIError ("Missing secret or certificate in order to "
                         +:+ "authenticate through a service principal")), s, []))
  ∧ (∀ l, current_records s = Some l → Forall well_formed l →
       (Some client_id, Some (Identity.tenant_id self)) ∉ key_of <$> l →
       outcome_of (Identity.login_with_service_principal acquire cert_digest self
                     client_id secret s) = Ok tt →
       outcome_of
         (Identity.get_service_principal_credential self client_id
            (store_of (Identity.login_with_service_principal acquire cert_digest self
                         client_id secret s)))
       = Ok (client_id, Some secret)).
Proof.
  split; [|split].
  - intros ex Ha. unfold Identity.login_with_service_principal. unfold_M.
    by rewrite Ha.
  - intros Ha ->. unfold Identity.login_with_service_principal. unfold_M.
    by rewrite Ha.
  - intros l Hcur Hwf Hnew.
    destruct (acquire client_id secret) as [[]|ex] eqn:Ha.
    2: { unfold Identity.login_with_service_principal. unfold_M. by rewrite Ha. }
    destruct secret as [|a secret].
    { unfold Identity.login_with_service_principal. unfold_M. by rewrite Ha. }
    rewrite (login_run _ _ _ _ _ _ _ Ha). intros Hok.
    set (e := secret_entry client_id (Identity.tenant_id self) (String a secret)) in *.
    destruct (persisted_entry_lookup
                (ServicePrincipalAuth.mk client_id (Identity.tenant_id self)
                   (ServicePrincipalAuth.Secret (String a secret))))
      as (Hi & Ht & _ & Hsec & Hcert).
    fold (secret_entry client_id (Identity.tenant_id self) (String a secret))
      in Hi, Ht, Hsec, Hcert.
    fold e in Hi, Ht, Hsec, Hcert. simpl in Hi, Ht.
    assert (key_of e = (Some client_id, Some (Identity.tenant_id self))) as Hk
      by (unfold key_of; by rewrite Hi, Ht).
    unfold Identity.get_service_principal_credential. unfold mbind, M_bind.
    assert (current_records
              (store_of (MsalSecretStore.save_service_principal_cred e s))
            = Some (l ++ [e])) as Hcur2.
    { apply save_new_key; [done| |done]. by rewrite Hk. }
    assert (key_of e ∉ key_of <$> l) as Hnew' by by rewrite Hk.
    pose proof (retrieve_last _ l e client_id (Identity.tenant_id self)
                  Hcur2 Hwf Hi Ht Hnew') as Hret.
    unfold outcome_of in Hret |- *.
    destruct (MsalSecretStore.retrieve_secret_of_service_principal _ _ _)
      as [[r s2] t2]. simpl in *. rewrite Hret.
    unfold secret_or_certificate, py_or. by rewrite Hsec.
Qed.

Lemma login_then_get_credential_witness :
  Identity.login_with_service_principal
    (λ _ _, Raise (CLIError "invalid_client")) (λ _, Ok "00:11")
    (Identity.mk None "t1" AZURE_CLI_CLIENT_ID true) "sp1" "abc" fresh_store
  = (Raise (CLIError "invalid_client"), fresh_store, [])
  ∧ outcome_of
      (Identity.get_service_principal_credential
         (Identity.mk None "t1" AZURE_CLI_CLIENT_ID true) "sp1"
         (store_of (Identity.login_with_service_principal
                      (λ _ _, Ok tt) (λ _, Ok "00:11")
                      (Identity.mk None "t1" AZURE_CLI_CLIENT_ID true)
                      "sp1" "abc" fresh_store)))
    = Ok ("sp1", Some "abc").
Proof.
  split.
  - apply (proj1 (login_then_get_credential
                    (λ _ _, Raise (CLIError "invalid_client")) (λ _, Ok "00:11")
                    (Identity.mk None "t1" AZURE_CLI_CLIENT_ID true)
                    "sp1" "abc" fresh_store) _ eq_refl).
  - apply (proj2 (proj2 (login_then_get_credential
                    (λ _ _, Ok tt) (λ _, Ok "00:11")
                    (Identity.mk None "t1" AZURE_CLI_CLIENT_ID true)
                    "sp1" "abc" fresh_store)) [] eq_refl).
    + constructor.
    + apply not_elem_of_nil.
    + vm_compute. reflexivity.
Defined.

(** ** Defaults of the identity *)

(** X16. An [Identity] built without [allow_unencrypted] never fails closed:
    on every platform and whatever the libsecret probe does, backend
    selection on its secret store returns a backend; on Linux with a failing
    probe that backend is the plain file, chosen with the plain-text
    warning. *)
Theorem default_identity_falls_back_to_plain_text (platform : string)
    (probe save_ex unlink_ex : option exn) (file : artifact)
    (authority tenant_id client_id : option string) :
  (∃ p,
     outcome_of (MsalSecretStore._build_persistence
                   (Identity.__init__ platform probe save_ex unlink_ex file
                      authority tenant_id client_id None).2) = Ok p)
  ∧ (∀ ex, String.prefix "linux" platform = true → probe = Some ex →
       MsalSecretStore._build_persistence
         (Identity.__init__ platform probe save_ex unlink_ex file
            authority tenant_id client_id None).2
       = (Ok FilePersistence,
          (Identity.__init__ platform probe save_ex unlink_ex file
             authority tenant_id client_id None).2,
          [EvWarning "Encryption unavailable. Opting in to plain text."])).
Proof.
  split.
  - unfold MsalSecretStore._build_persistence. unfold_M. simpl.
    destruct (String.prefix "win" platform); [eauto|].
    destruct (String.prefix "darwin" platform); [eauto|].
    destruct (String.prefix "linux" platform); [|eauto].
    destruct probe; simpl; eauto.
  - intros ex Hp ->. destruct (platform_exclusive platform) as [_ Hl].
    destruct (Hl Hp) as [Hw Hd].
    unfold MsalSecretStore._build_persistence. unfold_M. simpl.
    by rewrite Hw, Hd, Hp.
Qed.

Lemma default_identity_falls_back_to_plain_text_witness :
  MsalSecretStore._build_persistence
    (Identity.__init__ "linux" (Some (BackendError "no keyring")) None None
       NoArtifact None None None None).2
  = (Ok FilePersistence,
     (Identity.__init__ "linux" (Some (BackendError "no keyring")) None None
        NoArtifact None None None None).2,
     [EvWarning "Encryption unavailable. Opting in to plain text."]).
Proof.
  apply (proj2 (default_identity_falls_back_to_plain_text "linux"
                  (Some (BackendError "no keyring")) None None NoArtifact
                  None None None) (BackendError "no keyring") eq_refl eq_refl).
Defined.

(** ** The environment credential *)

Lemma cli_client_id_truthy : truthy (Some AZURE_CLI_CLIENT_ID) = true.
Proof. reflexivity. Qed.

(** X17. [get_environment_credential] changes at most [AZURE_CLIENT_ID]; it
    leaves the environment alone when [AZURE_USERNAME] is unset or empty or
    when [AZURE_CLIENT_ID] is already non-empty; after it, a non-empty
    [AZURE_USERNAME] always comes with a non-empty [AZURE_CLIENT_ID]; and
    calling it twice is the same as calling it once. *)
Theorem environment_client_id_default (environ : gmap string string) :
  Identity.get_environment_credential (Identity.get_environment_credential environ)
  = Identity.get_environment_credential environ
  ∧ (∀ k, k ≠ "AZURE_CLIENT_ID" →
       Identity.get_environment_credential environ !! k = environ !! k)
  ∧ (truthy (environ !! "AZURE_USERNAME") = false →
     Identity.get_environment_credential environ = environ)
  ∧ (truthy (environ !! "AZURE_CLIENT_ID") = true →
     Identity.get_environment_credential environ = environ)
  ∧ (truthy (environ !! "AZURE_USERNAME") = true →
     truthy (Identity.get_environment_credential environ !! "AZURE_CLIENT_ID") = true
     ∧ (truthy (environ !! "AZURE_CLIENT_ID") = false →
        Identity.get_environment_credential environ !! "AZURE_CLIENT_ID"
        = Some AZURE_CLI_CLIENT_ID)).
Proof.
  unfold Identity.get_environment_credential.
  destruct (truthy (environ !! "AZURE_USERNAME")) eqn:Hu;
    destruct (truthy (environ !! "AZURE_CLIENT_ID")) eqn:Hc; simpl;
    rewrite ?Hu, ?Hc; simpl.
  - repeat split; try done.
  - rewrite lookup_insert_eq, cli_client_id_truthy.
    rewrite lookup_insert_ne by done. rewrite Hu. simpl.
    repeat split; try done.
    intros k Hk. by rewrite lookup_insert_ne.
  - repeat split; try done.
  - repeat split; try done.
Qed.

Lemma environment_client_id_default_witness :
  Identity.get_environment_credential {["AZURE_USERNAME" := "user@example.com"]}
    !! "AZURE_CLIENT_ID" = Some AZURE_CLI_CLIENT_ID
  ∧ Identity.get_environment_credential
      (<["AZURE_CLIENT_ID" := "my-app"]> {["AZURE_USERNAME" := "user@example.com"]})
    = <["AZURE_CLIENT_ID" := "my-app"]> {["AZURE_USERNAME" := "user@example.com"]}.
Proof.
  split.
  - apply (proj2 (proj2 (proj2 (proj2 (environment_client_id_default
             {["AZURE_USERNAME" := "user@example.com"]})))));
      reflexivity.
  - apply (proj1 (proj2 (proj2 (proj2 (environment_client_id_default
             (<["AZURE_CLIENT_ID" := "my-app"]>
                {["AZURE_USERNAME" := "user@example.com"]})))))).
    reflexivity.
Defined.

(** ** Saving again under the same key *)



